(** * Zone-redundant VM cost estimator: price-record selection and cost aggregation

    A shallow embedding of [src/tools/azure_vm_zone_costs.py] and the
    properties of its record selectors, its inter-zone rate finder, its
    cost aggregator and the DR topology rules of [main].

    Modelling conventions.
    - Python [str] values are [string]s of ASCII characters; [lower],
      [upper] and [strip] act on the ASCII range.
    - A price record is a JSON object read as a [dict]; a key is absent,
      holds JSON [null], or holds a value ([field]).
    - A price is the decimal number of the JSON text, an exact rational
      in canonical form ([Qc]); records are ordered by it.  The amounts
      of the aggregator are binary64 ([float]), computed from the double
      nearest to the price with the operations and the order of the
      code.  NaN and infinite prices are outside the model, and so is
      the [OverflowError] of an instance count too large for a float.
    - The retail-prices service answers a query with a finite chain of
      pages, any of which may fail; every query issued is logged. *)

From Stdlib Require Import Floats.
From Stdlib Require Import List String Ascii Bool ZArith QArith Qcanon Qabs.
From Stdlib Require Import Permutation Sorted.
Import ListNotations.

Open Scope string_scope.

(* Decimal literals of amounts denote the nearest binary64. *)
#[local] Set Warnings "-inexact-float".

(* ================================================================== *)
(** ** Python string operations *)

Module PyStr.

Definition is_upper (c : ascii) : bool :=
  let n := nat_of_ascii c in (65 <=? n)%nat && (n <=? 90)%nat.

Definition is_lower (c : ascii) : bool :=
  let n := nat_of_ascii c in (97 <=? n)%nat && (n <=? 122)%nat.

(** [str.isspace] on the ASCII range: TAB, LF, VT, FF, CR, FS, GS, RS,
    US and the space. *)
Definition is_space (c : ascii) : bool :=
  let n := nat_of_ascii c in
  ((9 <=? n)%nat && (n <=? 13)%nat) || ((28 <=? n)%nat && (n <=? 32)%nat).

Definition lower_char (c : ascii) : ascii :=
  if is_upper c then ascii_of_nat (nat_of_ascii c + 32) else c.

Definition upper_char (c : ascii) : ascii :=
  if is_lower c then ascii_of_nat (nat_of_ascii c - 32) else c.

Fixpoint map_chars (f : ascii -> ascii) (s : string) : string :=
  match s with
  | EmptyString => EmptyString
  | String c s' => String (f c) (map_chars f s')
  end.

(** [s.lower()] and [s.upper()]. *)
Definition lower : string -> string := map_chars lower_char.
Definition upper : string -> string := map_chars upper_char.

(** [s.startswith(p)]. *)
Fixpoint startswith (p s : string) : bool :=
  match p, s with
  | EmptyString, _ => true
  | String a p', String b s' => Ascii.eqb a b && startswith p' s'
  | String _ _, EmptyString => false
  end.

(** [needle in hay]. *)
Fixpoint contains (needle hay : string) : bool :=
  match hay with
  | EmptyString => startswith needle EmptyString
  | String _ hay' => startswith needle hay || contains needle hay'
  end.

(** [s.replace(old, new)] for a non-empty [old]: occurrences are found
    left to right and do not overlap.  [skip] counts the characters of
    the occurrence being replaced that are still to be dropped. *)
Fixpoint replace_from (old new : string) (skip : nat) (s : string) : string :=
  match s with
  | EmptyString => EmptyString
  | String c s' =>
      match skip with
      | S k => replace_from old new k s'
      | O =>
          if startswith old s
          then new ++ replace_from old new (String.length old - 1) s'
          else String c (replace_from old new 0 s')
      end
  end.

Definition replace (old new s : string) : string := replace_from old new 0 s.

Fixpoint lstrip (s : string) : string :=
  match s with
  | EmptyString => EmptyString
  | String c s' => if is_space c then lstrip s' else s
  end.

Fixpoint rstrip (s : string) : string :=
  match s with
  | EmptyString => EmptyString
  | String c s' =>
      match rstrip s' with
      | EmptyString => if is_space c then EmptyString else String c EmptyString
      | t => String c t
      end
  end.

(** [s.strip()]. *)
Definition strip (s : string) : string := rstrip (lstrip s).

Fixpoint drop (n : nat) (s : string) : string :=
  match n, s with
  | O, _ => s
  | S _, EmptyString => EmptyString
  | S k, String _ s' => drop k s'
  end.

(** Removal of one leading occurrence of [p]: [s.removeprefix(p)]. *)
Definition removeprefix (p s : string) : string :=
  if startswith p s then drop (String.length p) s else s.

End PyStr.

Import PyStr.

(* ================================================================== *)
(** ** Price records *)

(** The state of a key of a JSON object read into a [dict]. *)
Inductive field (A : Type) : Type :=
| Absent : field A
| Null : field A
| Val : A -> field A.

Arguments Absent {A}.
Arguments Null {A}.
Arguments Val {A} _.

(** The keys of a price record that the program reads. *)
Record PriceRecord : Type := mkRecord {
  type : field string;
  unitOfMeasure : field string;
  productName : field string;
  skuName : field string;
  armSkuName : field string;
  meterName : field string;
  retailPrice : field Qc
}.

(** [r.get(k) or ""]: an absent key, [None] and the empty string all
    read as the empty string. *)
Definition get_or_empty (f : field string) : string :=
  match f with
  | Val s => s
  | Absent | Null => ""
  end.

(** [r.get(k, "")]: only an absent key takes the default; a [null] is
    returned as [None]. *)
Definition get_default (f : field string) : option string :=
  match f with
  | Val s => Some s
  | Absent => Some ""
  | Null => None
  end.

(** [r.get(k) != v]. *)
Definition field_neq (f : field string) (v : string) : bool :=
  match f with
  | Val s => negb (String.eqb s v)
  | Absent | Null => true
  end.

(** The sort key of every selector: [r.get("retailPrice") or 0.0]. *)
Definition price (r : PriceRecord) : Qc :=
  match retailPrice r with
  | Val p => p
  | Absent | Null => 0%Qc
  end.

(** Truth value of a record used as a condition ([if iz:]): a [dict] is
    false exactly when it has no key. *)
Definition is_set {A : Type} (f : field A) : bool :=
  match f with
  | Absent => false
  | Null | Val _ => true
  end.

Definition dict_truthy (r : PriceRecord) : bool :=
  is_set (type r) || is_set (unitOfMeasure r) || is_set (productName r) ||
  is_set (skuName r) || is_set (armSkuName r) || is_set (meterName r) ||
  is_set (retailPrice r).

(* ================================================================== *)
(** ** [list.sort(key=..., reverse=...)] *)

Definition Qcltb (x y : Qc) : bool :=
  match (x ?= y)%Qc with
  | Lt => true
  | _ => false
  end.

Section Sort.

Variable A : Type.
Variable key : A -> Qc.

(** [before reverse a b]: [a] must come strictly before [b]. *)
Definition before (reverse : bool) (a b : A) : bool :=
  if reverse then Qcltb (key b) (key a) else Qcltb (key a) (key b).

(** Insertion in front of a sorted list: [x] passes only the elements
    that must come strictly before it, so it stays ahead of the
    elements with an equal key. *)
Fixpoint insert (reverse : bool) (x : A) (l : list A) : list A :=
  match l with
  | [] => [x]
  | y :: l' => if before reverse y x then y :: insert reverse x l' else x :: l
  end.

(** The stable sort by [key], ascending, or descending when [reverse]
    is set (elements with equal keys keep their order both ways). *)
Definition list_sort (reverse : bool) (l : list A) : list A :=
  fold_right (insert reverse) [] l.

(** [in_order reverse a b]: [a] may stand before [b] in the result. *)
Definition in_order (reverse : bool) (a b : A) : Prop :=
  if reverse then (key b <= key a)%Qc else (key a <= key b)%Qc.

(** Two elements have the same key. *)
Definition same_key (a b : A) : bool :=
  match (key a ?= key b)%Qc with
  | Eq => true
  | _ => false
  end.

End Sort.

Arguments before {A} key reverse a b.
Arguments insert {A} key reverse x l.
Arguments list_sort {A} key reverse l.
Arguments in_order {A} key reverse a b.
Arguments same_key {A} key a b.

(* ================================================================== *)
(** ** Record selectors *)

(** The inner [is_match] of [select_vm_price]. *)
Definition vm_is_match (windows : bool) (r : PriceRecord) : bool :=
  if field_neq (type r) "Consumption" then false else
  let uom := lower (get_or_empty (unitOfMeasure r)) in
  if negb (contains "hour" uom) then false else
  let pname := get_or_empty (productName r) in
  let sname := get_or_empty (skuName r) in
  let mname := get_or_empty (meterName r) in
  if windows && negb (contains "Windows" pname) then false else
  let ex := contains "spot" (lower sname) || contains "spot" (lower mname)
            || contains "low priority" (lower mname) in
  if ex then false else true.

Definition select_vm_price (records : list PriceRecord) (windows : bool)
  : option PriceRecord :=
  let matches := filter (vm_is_match windows) records in
  match matches with
  | [] => None
  | _ :: _ => hd_error (list_sort price true matches)
  end.

(** The inner [is_match] of [select_disk_price]; [redundancy] is already
    lower-cased. *)
Definition disk_is_match (redundancy : string) (r : PriceRecord) : bool :=
  if field_neq (type r) "Consumption" then false else
  let uom := lower (get_or_empty (unitOfMeasure r)) in
  if negb (contains "month" uom) then false else
  let pname := get_or_empty (productName r) in
  let mname := get_or_empty (meterName r) in
  if negb (contains "Premium SSD Managed Disks" pname) then false else
  if String.eqb redundancy "lrs" && contains "lrs" (lower mname) then true else
  if String.eqb redundancy "zrs" && contains "zrs" (lower mname) then true else
  false.

Definition select_disk_price (records : list PriceRecord) (redundancy : string)
  : option PriceRecord :=
  let redundancy := lower redundancy in
  let matches := filter (disk_is_match redundancy) records in
  match matches with
  | [] => None
  | _ :: _ => hd_error (list_sort price true matches)
  end.

(** The candidate test of the loop of [find_interzone_bandwidth_rate]. *)
Definition is_candidate (r : PriceRecord) : bool :=
  let uom := lower (get_or_empty (unitOfMeasure r)) in
  let pname := lower (get_or_empty (productName r)) in
  let mname := lower (get_or_empty (meterName r)) in
  if negb (contains "gb" uom) then false else
  if negb (contains "bandwidth" pname) then false else
  if contains "zone" mname || contains "inter-zone" mname
     || contains "inter zone" mname
  then true else false.

(* ================================================================== *)
(** ** The pricing service and the effects of a computation *)

Inductive Exn : Type :=
| RequestException : Exn            (* a page request failed *)
| AttributeError : Exn              (* [None.lower()] *)
| RuntimeError : string -> Exn.     (* raised by the aggregator *)

(** A query: the filter expression and the currency code. *)
Definition Query : Type := (string * string)%type.

(** What the service answers to a request and to the requests that
    follow its continuation links: a request fails ([raise_for_status],
    or no answer), or returns a page of items, the last page having no
    [NextPageLink]. *)
Inductive Reply : Type :=
| Failed : Reply
| Last (items : list PriceRecord) : Reply
| More (items : list PriceRecord) (next : Reply) : Reply.

(** The service, by filter expression and currency code. *)
Definition Catalog : Type := string -> string -> Reply.

(** The [while True] loop of [fetch_prices] over the replies of the
    service; [None] stands for the exception of a failed request. *)
Fixpoint collect (results : list PriceRecord) (reply : Reply)
  : option (list PriceRecord) :=
  match reply with
  | Failed => None
  | Last items => Some (results ++ items)%list
  | More items next => collect (results ++ items)%list next
  end.

Definition fetch_all (cat : Catalog) (filter_expr currency : string)
  : option (list PriceRecord) :=
  collect [] (cat filter_expr currency).

(** A computation reads the service, raises or returns, and logs the
    queries it issued, oldest first. *)
Definition M (A : Type) : Type := Catalog -> (Exn + A) * list Query.

Definition ret {A : Type} (a : A) : M A := fun _ => (inr a, []).

Definition raise {A : Type} (e : Exn) : M A := fun _ => (inl e, []).

Definition bind {A B : Type} (m : M A) (k : A -> M B) : M B :=
  fun cat =>
    match m cat with
    | (inl e, log) => (inl e, log)
    | (inr a, log) => let (r, log') := k a cat in (r, (log ++ log')%list)
    end.

Definition lift {A : Type} (r : Exn + A) : M A := fun _ => (r, []).

Declare Scope py_scope.
Delimit Scope py_scope with py.
Notation "x <- m ;; k" := (bind m (fun x => k))
  (at level 100, m at next level, right associativity) : py_scope.
Notation "' p <- m ;; k" := (bind m (fun x => match x with p => k end))
  (at level 100, p pattern, m at next level, right associativity) : py_scope.
Open Scope py_scope.

Definition result {A : Type} (m : M A) (cat : Catalog) : Exn + A := fst (m cat).
Definition issued {A : Type} (m : M A) (cat : Catalog) : list Query := snd (m cat).

(** [fetch_prices]: the combined pages, or the exception of the first
    request that fails. *)
Definition fetch_prices (filter_expr currency : string) : M (list PriceRecord) :=
  fun cat =>
    (match fetch_all cat filter_expr currency with
     | Some items => inr items
     | None => inl RequestException
     end,
     [(filter_expr, currency)]).

(** A list comprehension whose condition may raise. *)
Fixpoint filter_exn {A : Type} (p : A -> Exn + bool) (l : list A)
  : Exn + list A :=
  match l with
  | [] => inr []
  | x :: l' =>
      match p x with
      | inl e => inl e
      | inr b =>
          match filter_exn p l' with
          | inl e => inl e
          | inr t => inr (if b then x :: t else t)
          end
      end
  end.

(* ================================================================== *)
(** ** Price lookups *)

Definition interzone_filters (region : string) : list string :=
  [ "serviceFamily eq 'Networking' and armRegionName eq '" ++ region
      ++ "' and priceType eq 'Consumption'";
    "serviceName eq 'Bandwidth' and armRegionName eq '" ++ region
      ++ "' and priceType eq 'Consumption'" ].

(** The [for f in filters] loop. *)
Fixpoint find_in_filters (filters : list string) (currency : string)
  : M (option PriceRecord) :=
  match filters with
  | [] => ret None
  | f :: rest =>
      recs <- fetch_prices f currency ;;
      let candidates := filter is_candidate recs in
      match candidates with
      | [] => find_in_filters rest currency
      | _ :: _ => ret (hd_error (list_sort price false candidates))
      end
  end.

Definition find_interzone_bandwidth_rate (region currency : string)
  : M (option PriceRecord) :=
  find_in_filters (interzone_filters region) currency.

Definition vm_filter (region : string) : string :=
  "serviceName eq 'Virtual Machines' and armRegionName eq '" ++ region
    ++ "' and priceType eq 'Consumption'".

(** The size normalisation of [get_vm_hourly_price]. *)
Definition target_lower (vm_size : string) : string :=
  strip (replace "standard_" "" (lower vm_size)).

(** The condition of the comprehension that narrows the records:
    [t in r.get("skuName","").lower() or t in r.get("armSkuName","").lower()]. *)
Definition size_matches (t : string) (r : PriceRecord) : Exn + bool :=
  match get_default (skuName r) with
  | None => inl AttributeError
  | Some sku =>
      if contains t (lower sku) then inr true
      else match get_default (armSkuName r) with
           | None => inl AttributeError
           | Some arm => inr (contains t (lower arm))
           end
  end.

Definition get_vm_hourly_price (region vm_size : string) (windows : bool)
    (currency : string) : M (option PriceRecord) :=
  let f := vm_filter region in
  recs <- fetch_prices f currency ;;
  let target_lower := target_lower vm_size in
  filtered <- lift (filter_exn (size_matches target_lower) recs) ;;
  match filtered with
  | [] => ret None
  | _ :: _ => ret (select_vm_price filtered windows)
  end.

Definition disk_filter (region disk_sku : string) : string :=
  "serviceFamily eq 'Storage' and armRegionName eq '" ++ region
    ++ "' and priceType eq 'Consumption' and "
    ++ "skuName eq '" ++ upper disk_sku ++ "'".

Definition get_disk_monthly_price (region disk_sku redundancy currency : string)
  : M (option PriceRecord) :=
  let f := disk_filter region disk_sku in
  recs <- fetch_prices f currency ;;
  ret (select_disk_price recs redundancy).

(* ================================================================== *)
(** ** Cost aggregation *)

(** [float(z)], the conversion Python applies to an [int] operand of a
    float product: the nearest binary64, ties to even.  Where this is
    infinite Python raises [OverflowError]; counts of that size (beyond
    about 1e305 instances) are outside the model. *)
Definition Z2float (z : Z) : float :=
  SF2Prim (binary_normalize prec emax z 0 false).

(** The binary64 that the JSON reader makes of a price, the double
    nearest to the decimal: for a price whose reduced numerator and
    denominator are below 2^53 (any price below a thousand million with
    at most six decimals) both convert exactly, and their quotient,
    rounded once, is that double.  A price written without a fraction is
    an [int] to Python, which multiplies it exactly and converts the
    product when it is added to the total: the same amount as here
    while [instances * 730] is below 2^53. *)
Definition to_float (q : Qc) : float :=
  (Z2float (Qnum q) / Z2float (Zpos (Qden q)))%float.

(** The exact value of a finite binary64; none for an infinity or NaN. *)
Definition float_value (x : float) : option Q :=
  match Prim2SF x with
  | S754_zero _ => Some 0%Q
  | S754_finite s m e =>
      Some (inject_Z (if s then Zneg m else Zpos m) * Qpower 2 e)%Q
  | S754_infinity _ | S754_nan => None
  end.

(** The exact sum of finite amounts. *)
Fixpoint exact_sum (l : list float) : option Q :=
  match l with
  | [] => Some 0%Q
  | x :: l' =>
      match float_value x, exact_sum l' with
      | Some a, Some b => Some (a + b)%Q
      | _, _ => None
      end
  end.

(** A breakdown: a [dict] from component names to amounts, in insertion
    order. *)
Definition Dict : Type := list (string * float).

(** [d[k] = v]: an existing key keeps its place, a new key goes last. *)
Fixpoint dict_set (k : string) (v : float) (d : Dict) : Dict :=
  match d with
  | [] => [(k, v)]
  | (k', v') :: d' =>
      if String.eqb k' k then (k', v) :: d' else (k', v') :: dict_set k v d'
  end.

Fixpoint dict_get (k : string) (d : Dict) : option float :=
  match d with
  | [] => None
  | (k', v') :: d' => if String.eqb k' k then Some v' else dict_get k d'
  end.

(** The amounts of [d] added one by one in insertion order, starting
    from 0.0, each addition rounded to binary64, as repeated
    [total += v] adds them (the built-in [sum] of Python 3.12 and later
    compensates the rounding errors and can differ). *)
Definition dict_sum (d : Dict) : float :=
  fold_left PrimFloat.add (map snd d) 0%float.

(** [str(b)] of a [bool]. *)
Definition str_of_bool (b : bool) : string := if b then "True" else "False".

(** [if x:] on an optional record. *)
Definition truthy (x : option PriceRecord) : bool :=
  match x with
  | Some r => dict_truthy r
  | None => false
  end.

Definition compute_primary_costs (region vm_size : string) (windows : bool)
    (instances : Z) (disk_sku disk_redundancy currency : string)
    (interzone_gb : float) : M (float * Dict) :=
  let details : Dict := [] in
  let total := 0%float in
  vm <- get_vm_hourly_price region vm_size windows currency ;;
  match vm with
  | None =>
      raise (RuntimeError ("Could not find VM price for " ++ vm_size ++ " in "
                             ++ region ++ " (windows=" ++ str_of_bool windows ++ ")."))
  | Some vm =>
      let vm_month := (Z2float (instances * 730) * to_float (price vm))%float in
      let details := dict_set "compute_vm_month" vm_month details in
      let total := (total + vm_month)%float in
      disk <- get_disk_monthly_price region disk_sku disk_redundancy currency ;;
      match disk with
      | None =>
          raise (RuntimeError ("Could not find disk price for " ++ disk_sku ++ " "
                                 ++ upper disk_redundancy ++ " in " ++ region ++ "."))
      | Some disk =>
          let disk_month := (Z2float instances * to_float (price disk))%float in
          let details := dict_set "os_disks_month" disk_month details in
          let total := (total + disk_month)%float in
          if PrimFloat.ltb 0 interzone_gb then
            iz <- find_interzone_bandwidth_rate region currency ;;
            if truthy iz then
              let iz_cost := (interzone_gb * to_float (match iz with
                                                       | Some r => price r
                                                       | None => 0%Qc
                                                       end))%float in
              ret ((total + iz_cost)%float,
                   dict_set "interzone_data_month" iz_cost details)
            else
              ret (total, dict_set "interzone_data_month" 0%float details)
          else
            ret (total, details)
      end
  end.

(* ================================================================== *)
(** ** [main]: the two phases and the DR topology *)

Record Args : Type := mkArgs {
  args_primary : string;
  args_dr : string;
  args_vm_size : string;
  args_os : string;
  args_instances : Z;
  args_os_disk : string;
  args_disk_redundancy : string;
  args_interzone_gb : float;
  args_currency : string;
  args_dr_mode : string
}.

(** [dr_instances] as [main] sets it from [args.dr_mode]. *)
Definition dr_instances (dr_mode : string) (instances : Z) : Z :=
  if String.eqb dr_mode "warm" then 1%Z
  else if String.eqb dr_mode "hot" then instances
  else 0%Z.

(** [disk_count]: [args.instances if args.dr_mode in ("cold", "hot") else 1]. *)
Definition disk_count (dr_mode : string) (instances : Z) : Z :=
  if String.eqb dr_mode "cold" || String.eqb dr_mode "hot" then instances else 1%Z.

(** The body of the second [try] of [main]. *)
Definition dr_costs (args : Args) (windows : bool) (dr_instances : Z)
  : M (float * Dict) :=
  let dr_total := 0%float in
  let dr_details : Dict := [] in
  let disk_count := disk_count (args_dr_mode args) (args_instances args) in
  '(dr_total, dr_details) <-
     (if (0 <? dr_instances)%Z then
        vm <- get_vm_hourly_price (args_dr args) (args_vm_size args) windows
                (args_currency args) ;;
        match vm with
        | None =>
            raise (RuntimeError ("Could not find DR VM price for "
                                   ++ args_vm_size args ++ " in " ++ args_dr args ++ "."))
        | Some vm =>
            let vm_month :=
              (Z2float (dr_instances * 730) * to_float (price vm))%float in
            ret ((dr_total + vm_month)%float,
                 dict_set "compute_vm_month" vm_month dr_details)
        end
      else ret (dr_total, dr_details)) ;;
  disk <- get_disk_monthly_price (args_dr args) (args_os_disk args)
            (args_disk_redundancy args) (args_currency args) ;;
  match disk with
  | None =>
      raise (RuntimeError ("Could not find DR disk price for " ++ args_os_disk args
                             ++ " " ++ upper (args_disk_redundancy args) ++ " in "
                             ++ args_dr args ++ "."))
  | Some disk =>
      let dr_disk_month := (Z2float disk_count * to_float (price disk))%float in
      ret ((dr_total + dr_disk_month)%float,
           dict_set "os_disks_month" dr_disk_month dr_details)
  end.

(** [try: ... except Exception as e:]. *)
Definition try {A : Type} (m : M A) : M (Exn + A) :=
  fun cat => let (r, log) := m cat in (inr r, log).

(** What a run of [main] ends with: [sys.exit(code)] after an exception,
    or the figures handed to the printing code. *)
Inductive Outcome : Type :=
| Exit (code : Z) (e : Exn)
| Summary (primary_total : float) (primary_details : Dict)
          (dr_total : float) (dr_details : Dict).

Definition main (args : Args) : M Outcome :=
  let windows := String.eqb (args_os args) "windows" in
  p <- try (compute_primary_costs (args_primary args) (args_vm_size args) windows
              (args_instances args) (args_os_disk args) (args_disk_redundancy args)
              (args_currency args) (args_interzone_gb args)) ;;
  match p with
  | inl e => ret (Exit 2 e)
  | inr (primary_total, primary_details) =>
      let dr_instances := dr_instances (args_dr_mode args) (args_instances args) in
      d <- try (dr_costs args windows dr_instances) ;;
      match d with
      | inl e => ret (Exit 3 e)
      | inr (dr_total, dr_details) =>
          ret (Summary primary_total primary_details dr_total dr_details)
      end
  end.

(* ================================================================== *)
(** ** The selection rules as the specification words them *)

Module Spec.

(** "[hay] contains [needle] case-insensitively". *)
Definition contains_ci (needle hay : string) : bool :=
  contains (lower needle) (lower hay).

(** The text of a key; a record without the key has no text. *)
Definition text (f : field string) : string := get_or_empty f.

Definition type_is (r : PriceRecord) (v : string) : bool :=
  match type r with
  | Val s => String.eqb s v
  | Absent | Null => false
  end.

(** Section 4.2, rule 4. *)
Definition excluded (r : PriceRecord) : bool :=
  contains_ci "spot" (text (skuName r)) || contains_ci "spot" (text (meterName r))
  || contains_ci "low priority" (text (meterName r)).

(** Section 4.2, rules 1 to 4. *)
Definition vm_predicate (isWindows : bool) (r : PriceRecord) : bool :=
  type_is r "Consumption"
  && contains_ci "hour" (text (unitOfMeasure r))
  && (if isWindows then contains "Windows" (text (productName r)) else true)
  && negb (excluded r).

(** Section 4.3. *)
Definition disk_predicate (redundancy : string) (r : PriceRecord) : bool :=
  type_is r "Consumption"
  && contains_ci "month" (text (unitOfMeasure r))
  && contains "Premium SSD Managed Disks" (text (productName r))
  && contains_ci redundancy (text (meterName r)).

(** Section 4.4. *)
Definition interzone_predicate (r : PriceRecord) : bool :=
  contains_ci "gb" (text (unitOfMeasure r))
  && contains_ci "bandwidth" (text (productName r))
  && (contains_ci "zone" (text (meterName r))
      || contains_ci "inter-zone" (text (meterName r))
      || contains_ci "inter zone" (text (meterName r))).

(** Section 4.5: "lower-casing and stripping a leading standard_ prefix". *)
Definition normalize_size (vm_size : string) : string :=
  removeprefix "standard_" (lower vm_size).

(** Section 4.5: the records kept for a normalised size. *)
Definition size_kept (t : string) (r : PriceRecord) : bool :=
  contains_ci t (text (skuName r)) || contains_ci t (text (armSkuName r)).

(** Section 4.4: a query "yields a candidate", and the "lowest-priced
    match" among the records of a query. *)
Definition has_candidate (recs : list PriceRecord) : Prop :=
  exists r, In r recs /\ interzone_predicate r = true.

Definition no_candidate (recs : list PriceRecord) : Prop :=
  forall r, In r recs -> interzone_predicate r = false.

Definition lowest_candidate (r : PriceRecord) (recs : list PriceRecord) : Prop :=
  In r recs /\ interzone_predicate r = true /\
  forall r', In r' recs -> interzone_predicate r' = true -> (price r <= price r')%Qc.

End Spec.

(* ================================================================== *)
(** ** Sample records and a sample service *)

Module Sample.

(** A record with every key present. *)
Definition item (ty uom pname sku arm meter : string) (p : Q) : PriceRecord :=
  mkRecord (Val ty) (Val uom) (Val pname) (Val sku) (Val arm) (Val meter)
           (Val (Q2Qc p)).

Definition vm_windows : PriceRecord :=
  item "Consumption" "1 Hour" "Virtual Machines Dsv5 Series Windows"
       "D8s v5" "Standard_D8s_v5" "D8s v5" 0.752.

Definition vm_windows_alt : PriceRecord :=
  item "Consumption" "1 Hour" "Virtual Machines Dsv5 Series Windows"
       "D8s v5" "Standard_D8s_v5" "D8s v5/D8as v5" 0.752.

Definition vm_windows_cheap : PriceRecord :=
  item "Consumption" "1 Hour" "Virtual Machines Dsv5 Series Windows"
       "D8s v5" "Standard_D8s_v5" "D8s v5 Promo" 0.25.

Definition vm_linux : PriceRecord :=
  item "Consumption" "1 Hour" "Virtual Machines Dsv5 Series"
       "D8s v5" "Standard_D8s_v5" "D8s v5" 0.384.

Definition vm_spot : PriceRecord :=
  item "Consumption" "1 Hour" "Virtual Machines Dsv5 Series Windows"
       "D8s v5 Spot" "Standard_D8s_v5" "D8s v5 Spot" 0.9.

Definition vm_low_priority : PriceRecord :=
  item "Consumption" "1 Hour" "Virtual Machines Dsv5 Series Windows"
       "D8s v5 Low Priority" "Standard_D8s_v5" "D8s v5 Low Priority" 0.95.

Definition vm_devtest : PriceRecord :=
  item "DevTestConsumption" "1 Hour" "Virtual Machines Dsv5 Series Windows"
       "D8s v5" "Standard_D8s_v5" "D8s v5" 0.99.

Definition vm_other_size : PriceRecord :=
  item "Consumption" "1 Hour" "Virtual Machines Dsv5 Series Windows"
       "D16s v5" "Standard_D16s_v5" "D16s v5" 1.536.

Definition vm_m16 : PriceRecord :=
  item "Consumption" "1 Hour" "Virtual Machines MS Series Windows"
       "M16ms" "Standard_M16ms" "M16ms" 1.536.

Definition disk_lrs : PriceRecord :=
  item "Consumption" "1/Month" "Premium SSD Managed Disks"
       "P10 LRS" "Premium_SSD_Managed_Disk_P10" "P10 LRS Disk" 19.71.

Definition disk_zrs : PriceRecord :=
  item "Consumption" "1/Month" "Premium SSD Managed Disks"
       "P10 ZRS" "Premium_SSD_Managed_Disk_P10" "P10 ZRS Disk" 29.565.

Definition disk_mount : PriceRecord :=
  item "Consumption" "1/Month" "Premium SSD Managed Disks"
       "P10 LRS" "Premium_SSD_Managed_Disk_P10" "P10 LRS Disk Mount" 1.52.

Definition bandwidth (meter : string) (p : Q) : PriceRecord :=
  item "Consumption" "1 GB" "Bandwidth - Inter-Availability Zone"
       "Inter-Availability Zone" "" meter p.

Definition zone_a : PriceRecord := bandwidth "Inter-Availability Zone Data Transfer In" 0.01.
Definition zone_b : PriceRecord := bandwidth "Inter-Availability Zone Data Transfer Out" 0.02.
Definition zone_c : PriceRecord := bandwidth "Intra-Zone Data Transfer" 0.005.
Definition egress : PriceRecord :=
  item "Consumption" "1 GB" "Bandwidth" "Standard" "" "Standard Data Transfer Out" 0.087.

(** A service that knows one region, [eastus2]; the VM records come in
    two pages. *)
Definition catalog (zones : list PriceRecord) : Catalog :=
  fun filter_expr _ =>
    if String.eqb filter_expr (vm_filter "eastus2")
    then More [vm_linux; vm_windows_cheap; vm_spot]
              (Last [vm_other_size; vm_windows; vm_devtest])
    else if String.eqb filter_expr (disk_filter "eastus2" "P10")
    then Last [disk_zrs; disk_mount; disk_lrs]
    else if String.eqb filter_expr
              "serviceName eq 'Bandwidth' and armRegionName eq 'eastus2' and priceType eq 'Consumption'"
    then More [egress] (Last zones)
    else Last [].

(** A service whose every request fails. *)
Definition offline : Catalog := fun _ _ => Failed.

(** A service whose second page of VM records fails. *)
Definition broken_page : Catalog :=
  fun _ _ => More [vm_windows] Failed.

End Sample.

(* ================================================================== *)
(** ** Views of a reply, and further sample data *)

(** The pages of a reply, in the order they are received, up to the
    first failed request. *)
Fixpoint reply_pages (reply : Reply) : list (list PriceRecord) :=
  match reply with
  | Failed => []
  | Last items => [items]
  | More items next => items :: reply_pages next
  end.

(** No request of the chain fails. *)
Fixpoint reply_ok (reply : Reply) : bool :=
  match reply with
  | Failed => false
  | Last _ => true
  | More _ next => reply_ok next
  end.

Module Cases.

(** A VM record whose [skuName] is JSON [null]. *)
Definition vm_null_sku : PriceRecord :=
  mkRecord (Val "Consumption") (Val "1 Hour")
           (Val "Virtual Machines Dsv5 Series Windows")
           Null (Val "Standard_D8s_v5") (Val "D8s v5") (Val (Q2Qc 0.752)).

(** The sample service with that record on the second page of VM records. *)
Definition null_catalog : Catalog :=
  fun filter_expr currency =>
    if String.eqb filter_expr (vm_filter "eastus2")
    then More [Sample.vm_windows] (Last [vm_null_sku])
    else Sample.catalog [] filter_expr currency.

Definition args (vm_size dr dr_mode : string) (instances : Z) : Args :=
  mkArgs "eastus2" dr vm_size "windows" instances "P10" "lrs" 0%float "USD" dr_mode.

End Cases.

(* ================================================================== *)
(** ** Proof automation *)

(** Case analysis on every substring test of the goal. *)
Ltac split_contains :=
  repeat match goal with
         | |- context [contains ?a ?b] => destruct (contains a b)
         end.

(* ================================================================== *)
(** * Properties *)

(** ** Strings *)

Example lower_ex : lower "1 Hour (Spot)" = "1 hour (spot)".
Proof. reflexivity. Qed.

Example upper_ex : upper "p10 zrs" = "P10 ZRS".
Proof. reflexivity. Qed.

Example contains_ex :
  contains "hour" "1 hour" = true /\ contains "hour" "1/month" = false /\
  contains "" "" = true /\ contains "Windows" "windows" = false.
Proof. repeat split; reflexivity. Qed.

Example replace_ex :
  replace "standard_" "" "standard_d8s_standard_v5" = "d8s_v5" /\
  replace "aa" "b" "aaa" = "ba" /\
  replace "standard_" "" "d8s v5" = "d8s v5".
Proof. repeat split; reflexivity. Qed.

Example strip_ex :
  strip "  d8s v5 " = "d8s v5" /\ strip "   " = "" /\ strip "a  b" = "a  b".
Proof. repeat split; reflexivity. Qed.

Example removeprefix_ex :
  removeprefix "standard_" "standard_d8s_standard_v5" = "d8s_standard_v5" /\
  removeprefix "standard_" "d8s v5" = "d8s v5".
Proof. repeat split; reflexivity. Qed.

Lemma startswith_app (p s : string) : startswith p (p ++ s) = true.
Proof.
  induction p as [|c p IH]; simpl; [reflexivity|].
  now rewrite Ascii.eqb_refl.
Qed.

Lemma startswith_split (p s : string) :
  startswith p s = true -> exists t, s = p ++ t.
Proof.
  revert s; induction p as [|c p IH]; intros s H; simpl in *.
  - now exists s.
  - destruct s as [|d s]; [discriminate|].
    apply andb_true_iff in H as [Hc Hp].
    apply Ascii.eqb_eq in Hc; subst d.
    destruct (IH _ Hp) as [t ->]. now exists t.
Qed.

Lemma contains_startswith (p s : string) :
  startswith p s = true -> contains p s = true.
Proof.
  destruct s; simpl; intros H; [assumption|now rewrite H].
Qed.

(** [contains] is the substring test. *)
Lemma contains_iff (needle hay : string) :
  contains needle hay = true <-> exists a b, hay = a ++ needle ++ b.
Proof.
  split.
  - induction hay as [|c hay IH]; simpl; intros H.
    + apply startswith_split in H as [t Ht]. now exists "", t.
    + apply orb_true_iff in H as [H|H].
      * apply startswith_split in H as [t Ht]. now exists "", t.
      * destruct (IH H) as (a & b & ->). now exists (String c a), b.
  - intros (a & b & ->). induction a as [|c a IH]; simpl.
    + apply contains_startswith, startswith_app.
    + rewrite IH. apply orb_true_r.
Qed.

Lemma lower_idempotent (s : string) : lower (lower s) = lower s.
Proof.
  induction s as [|c s IH]; simpl; [reflexivity|].
  unfold lower in *. simpl. rewrite IH. f_equal.
  destruct c as [[] [] [] [] [] [] [] []]; reflexivity.
Qed.

(** ** Order of amounts *)

Lemma Qcltb_lt (x y : Qc) : Qcltb x y = true <-> (x < y)%Qc.
Proof.
  unfold Qcltb. rewrite Qclt_alt.
  destruct (x ?= y)%Qc; split; congruence.
Qed.

Lemma Qcltb_ge (x y : Qc) : Qcltb x y = false <-> (y <= x)%Qc.
Proof.
  split; intros H.
  - apply Qcnot_lt_le. intros L. apply Qcltb_lt in L. congruence.
  - destruct (Qcltb x y) eqn:E; [|reflexivity].
    apply Qcltb_lt in E. now apply Qcle_not_lt in H.
Qed.

(** ** The sort is the stable sort *)

Section SortFacts.

Context {A : Type} (key : A -> Qc).

Lemma before_false (reverse : bool) (a b : A) :
  before key reverse b a = false <-> in_order key reverse a b.
Proof. unfold before, in_order. destruct reverse; apply Qcltb_ge. Qed.

Lemma before_in_order (reverse : bool) (a b : A) :
  before key reverse a b = true -> in_order key reverse a b.
Proof.
  unfold before, in_order.
  destruct reverse; intros H; apply Qcltb_lt in H; now apply Qclt_le_weak.
Qed.

Lemma in_order_trans (reverse : bool) (a b c : A) :
  in_order key reverse a b -> in_order key reverse b c -> in_order key reverse a c.
Proof.
  unfold in_order. destruct reverse; intros H1 H2;
    eapply Qcle_trans; eassumption.
Qed.

Lemma in_order_antisym (reverse : bool) (a b : A) :
  in_order key reverse a b -> in_order key reverse b a -> key a = key b.
Proof.
  unfold in_order. destruct reverse; intros H1 H2;
    now apply Qcle_antisym.
Qed.

Lemma insert_perm (reverse : bool) (x : A) (l : list A) :
  Permutation (insert key reverse x l) (x :: l).
Proof.
  induction l as [|y l IH]; simpl; [reflexivity|].
  destruct (before key reverse y x); [|reflexivity].
  rewrite IH. apply perm_swap.
Qed.

Lemma list_sort_perm (reverse : bool) (l : list A) :
  Permutation (list_sort key reverse l) l.
Proof.
  induction l as [|x l IH]; simpl; [reflexivity|].
  rewrite insert_perm. now rewrite IH.
Qed.

Lemma insert_sorted (reverse : bool) (x : A) (l : list A) :
  StronglySorted (in_order key reverse) l ->
  StronglySorted (in_order key reverse) (insert key reverse x l).
Proof.
  induction 1 as [|y l Hl IH Hy]; simpl.
  - repeat constructor.
  - destruct (before key reverse y x) eqn:E.
    + constructor; [exact IH|].
      eapply Permutation_Forall; [symmetry; apply insert_perm|].
      constructor; [now apply before_in_order|exact Hy].
    + apply before_false in E.
      constructor; [now constructor|].
      constructor; [exact E|].
      eapply Forall_impl; [|exact Hy].
      intros z Hz. eapply in_order_trans; eassumption.
Qed.

Lemma list_sort_sorted (reverse : bool) (l : list A) :
  StronglySorted (in_order key reverse) (list_sort key reverse l).
Proof.
  induction l as [|x l IH]; simpl; [constructor|].
  now apply insert_sorted.
Qed.

Lemma same_key_eq (a b : A) : same_key key a b = true <-> key a = key b.
Proof.
  unfold same_key. rewrite Qceq_alt.
  destruct (key a ?= key b)%Qc; split; congruence.
Qed.

Lemma insert_stable (reverse : bool) (a x : A) (l : list A) :
  filter (same_key key a) (insert key reverse x l) = filter (same_key key a) (x :: l).
Proof.
  induction l as [|y l IH]; [reflexivity|].
  cbn [insert]. destruct (before key reverse y x) eqn:E; [|reflexivity].
  cbn [filter] in *. rewrite IH.
  destruct (same_key key a y) eqn:Ey, (same_key key a x) eqn:Ex; try reflexivity.
  exfalso. apply same_key_eq in Ey, Ex.
  assert (in_order key reverse x y) as H.
  { unfold in_order. rewrite <- Ex, <- Ey.
    destruct reverse; apply Qcle_refl. }
  apply before_false in H. congruence.
Qed.

(** Records with equal keys keep the order they had in the input. *)
Lemma list_sort_stable (reverse : bool) (a : A) (l : list A) :
  filter (same_key key a) (list_sort key reverse l) = filter (same_key key a) l.
Proof.
  induction l as [|x l IH]; [reflexivity|].
  cbn [list_sort fold_right]. rewrite insert_stable.
  cbn [filter]. fold (list_sort key reverse l). now rewrite IH.
Qed.

(** The first element of the sorted list: an element of the input that
    may stand before every other. *)
Lemma list_sort_head (reverse : bool) (l : list A) :
  l <> [] ->
  exists r, hd_error (list_sort key reverse l) = Some r /\ In r l /\
            forall r', In r' l -> in_order key reverse r r'.
Proof.
  intros Hne.
  pose proof (list_sort_perm reverse l) as P.
  pose proof (list_sort_sorted reverse l) as S.
  destruct (list_sort key reverse l) as [|r t].
  - apply Permutation_nil in P. contradiction.
  - exists r. split; [reflexivity|]. split.
    + eapply Permutation_in; [exact P|now left].
    + intros r' Hr'.
      apply (Permutation_in _ (Permutation_sym P)) in Hr'.
      inversion S as [|? ? _ Hall]; subst.
      destruct Hr' as [<-|Hr'].
      * unfold in_order. destruct reverse; apply Qcle_refl.
      * rewrite Forall_forall in Hall. now apply Hall.
Qed.

(** The first element of the sorted list is the first element of the
    input with that key. *)
Lemma list_sort_head_first (reverse : bool) (l : list A) (r : A) :
  hd_error (list_sort key reverse l) = Some r ->
  hd_error (filter (same_key key r) l) = Some r.
Proof.
  intros H. rewrite <- (list_sort_stable reverse r l).
  destruct (list_sort key reverse l) as [|x t]; [discriminate|].
  injection H as ->. cbn [filter].
  now rewrite (proj2 (same_key_eq r r) eq_refl).
Qed.

End SortFacts.

(** ** Selection of the first record after the sort *)

Lemma filter_perm {A : Type} (p : A -> bool) (l l' : list A) :
  Permutation l l' -> Permutation (filter p l) (filter p l').
Proof.
  induction 1 as [|x l l' _ IH|x y l|l l' l'' _ IH1 _ IH2]; simpl.
  - constructor.
  - destruct (p x); [now constructor|exact IH].
  - destruct (p x), (p y); try reflexivity. apply perm_swap.
  - now transitivity (filter p l').
Qed.

Lemma filter_nil_iff {A : Type} (p : A -> bool) (l : list A) :
  filter p l = [] <-> forall r, In r l -> p r = false.
Proof.
  split.
  - intros E r Hr. destruct (p r) eqn:Hp; [|reflexivity].
    assert (In r (filter p l)) as H by (apply filter_In; now split).
    rewrite E in H. destruct H.
  - intros H. induction l as [|x l IH]; [reflexivity|]. simpl.
    rewrite (H x (or_introl eq_refl)). apply IH.
    intros r Hr. apply H. now right.
Qed.

Lemma filter_twice {A : Type} (p q : A -> bool) (l : list A) :
  filter q (filter p l) = filter (fun x => p x && q x) l.
Proof.
  induction l as [|x l IH]; [reflexivity|]. cbn [filter].
  destruct (p x); cbn [filter andb]; now rewrite IH.
Qed.

Lemma sorted_filter_head {A : Type} (key : A -> Qc) (reverse : bool)
    (p : A -> bool) (l : list A) :
  filter p l <> [] ->
  exists r, hd_error (list_sort key reverse (filter p l)) = Some r /\
            In r l /\ p r = true /\
            forall r', In r' l -> p r' = true -> in_order key reverse r r'.
Proof.
  intros Hne.
  destruct (list_sort_head key reverse (filter p l) Hne) as (r & Hhd & Hin & Hbest).
  apply filter_In in Hin as [Hin Hp].
  exists r. repeat split; try assumption.
  intros r' Hr' Hp'. apply Hbest. apply filter_In. now split.
Qed.

(** The key of the selected record does not depend on the order of the
    input, and neither does the record when ties are between equal
    records only. *)
Lemma sorted_filter_head_perm {A : Type} (key : A -> Qc) (reverse : bool)
    (p : A -> bool) (l l' : list A) (r r' : A) :
  Permutation l l' ->
  hd_error (list_sort key reverse (filter p l)) = Some r ->
  hd_error (list_sort key reverse (filter p l')) = Some r' ->
  key r = key r' /\ In r l /\ In r' l /\ p r = true /\ p r' = true.
Proof.
  intros P H H'.
  assert (filter p l <> []) as Hne by (intros E; rewrite E in H; discriminate).
  assert (filter p l' <> []) as Hne' by (intros E; rewrite E in H'; discriminate).
  destruct (sorted_filter_head key reverse p l Hne) as (x & Hx & Hin & Hp & Hbest).
  destruct (sorted_filter_head key reverse p l' Hne') as (x' & Hx' & Hin' & Hp' & Hbest').
  rewrite H in Hx; injection Hx as <-.
  rewrite H' in Hx'; injection Hx' as <-.
  apply (Permutation_in _ (Permutation_sym P)) in Hin'.
  repeat split; try assumption.
  apply (in_order_antisym key reverse).
  - now apply Hbest.
  - apply Hbest'; [|assumption]. now apply (Permutation_in _ P).
Qed.

(** ** The predicates of the code are the predicates of the specification *)

Lemma vm_is_match_spec (windows : bool) (r : PriceRecord) :
  vm_is_match windows r = Spec.vm_predicate windows r.
Proof.
  unfold vm_is_match, Spec.vm_predicate, Spec.excluded, Spec.contains_ci,
    Spec.type_is, Spec.text, field_neq.
  change (lower "hour") with "hour". change (lower "spot") with "spot".
  change (lower "low priority") with "low priority".
  destruct (type r) as [| |s]; try reflexivity.
  destruct (String.eqb s "Consumption"); [|reflexivity].
  cbn [negb andb]. split_contains; destruct windows; reflexivity.
Qed.

Lemma disk_is_match_spec (redundancy : string) (r : PriceRecord) :
  lower redundancy = "lrs" \/ lower redundancy = "zrs" ->
  disk_is_match (lower redundancy) r = Spec.disk_predicate redundancy r.
Proof.
  unfold disk_is_match, Spec.disk_predicate, Spec.contains_ci,
    Spec.type_is, Spec.text, field_neq.
  change (lower "month") with "month".
  intros [-> | ->]; cbn [String.eqb Ascii.eqb Bool.eqb andb];
    (destruct (type r) as [| |s]; try reflexivity);
    (destruct (String.eqb s "Consumption"); [|reflexivity]);
    cbn [negb andb]; split_contains; reflexivity.
Qed.

Lemma is_candidate_spec (r : PriceRecord) :
  is_candidate r = Spec.interzone_predicate r.
Proof.
  unfold is_candidate, Spec.interzone_predicate, Spec.contains_ci, Spec.text.
  change (lower "gb") with "gb". change (lower "bandwidth") with "bandwidth".
  change (lower "zone") with "zone". change (lower "inter-zone") with "inter-zone".
  change (lower "inter zone") with "inter zone".
  split_contains; reflexivity.
Qed.

(** ** VM price selection *)

Example select_vm_windows :
  select_vm_price
    [Sample.vm_linux; Sample.vm_windows_cheap; Sample.vm_spot; Sample.vm_windows;
     Sample.vm_low_priority; Sample.vm_devtest] true
  = Some Sample.vm_windows.
Proof. reflexivity. Qed.

Example select_vm_linux_skips_os_check :
  select_vm_price [Sample.vm_linux; Sample.vm_windows] false = Some Sample.vm_windows.
Proof. reflexivity. Qed.

Example select_vm_none :
  select_vm_price [Sample.vm_spot; Sample.vm_low_priority; Sample.vm_devtest] true = None.
Proof. reflexivity. Qed.

(** C1. [select_vm_price records isWindows] is [None] exactly when no
    record of the list satisfies the predicate of section 4.2 (type
    "Consumption", unit containing "hour" whatever the case, product name
    containing "Windows" when [isWindows] and unchecked otherwise, no
    "spot" in SKU or meter name and no "low priority" in the meter name);
    otherwise it is a record of the list that satisfies the predicate and
    whose price (0 when missing) is at least the price of every
    satisfying record. *)
Theorem select_vm_price_correct (records : list PriceRecord) (isWindows : bool) :
  (select_vm_price records isWindows = None <->
   forall r, In r records -> Spec.vm_predicate isWindows r = false)
  /\ ((exists r, In r records /\ Spec.vm_predicate isWindows r = true) ->
      exists r, select_vm_price records isWindows = Some r)
  /\ (forall r, select_vm_price records isWindows = Some r ->
        In r records /\ Spec.vm_predicate isWindows r = true /\
        forall r', In r' records -> Spec.vm_predicate isWindows r' = true ->
                   (price r' <= price r)%Qc).
Proof.
  unfold select_vm_price.
  destruct (filter (vm_is_match isWindows) records) as [|m ms] eqn:E.
  - pose proof (proj1 (filter_nil_iff _ _) E) as Hnone.
    split; [|split].
    + split; [|reflexivity]. intros _ r Hr.
      rewrite <- vm_is_match_spec. now apply Hnone.
    + intros (r & Hr & Hp). rewrite <- vm_is_match_spec in Hp.
      rewrite (Hnone r Hr) in Hp. discriminate.
    + discriminate.
  - rewrite <- E.
    assert (filter (vm_is_match isWindows) records <> []) as Hne
        by (rewrite E; discriminate).
    destruct (sorted_filter_head price true _ _ Hne) as (x & Hx & Hin & Hp & Hbest).
    rewrite Hx. split; [|split].
    + split; [discriminate|]. intros Hnone.
      specialize (Hnone x Hin). rewrite <- vm_is_match_spec in Hnone. congruence.
    + intros _. now exists x.
    + intros r [= <-]. rewrite <- vm_is_match_spec.
      repeat split; try assumption.
      intros r' Hr' Hp'. rewrite <- vm_is_match_spec in Hp'.
      exact (Hbest r' Hr' Hp').
Qed.

(** ** Order of the input *)

(** C2, as stated, fails: two distinct matching records with the same
    price are both maximal, and the first of them in the input is the one
    returned. *)
Lemma select_vm_price_order_dependent :
  Permutation [Sample.vm_windows; Sample.vm_windows_alt]
              [Sample.vm_windows_alt; Sample.vm_windows]
  /\ select_vm_price [Sample.vm_windows; Sample.vm_windows_alt] true
     = Some Sample.vm_windows
  /\ select_vm_price [Sample.vm_windows_alt; Sample.vm_windows] true
     = Some Sample.vm_windows_alt
  /\ select_vm_price [Sample.vm_windows; Sample.vm_windows_alt] true
     <> select_vm_price [Sample.vm_windows_alt; Sample.vm_windows] true.
Proof.
  split; [apply perm_swap|].
  split; [reflexivity|]. split; [reflexivity|].
  intros H. vm_compute in H. discriminate H.
Qed.

(** C2, amended. For a list and a permutation of it, [select_vm_price]
    returns [None] on both or records of the same price on both; it
    returns the same record on both whenever two satisfying records of
    equal price are always the same record; and the record it returns is
    the first record of its input among the satisfying records of that
    price. *)
Theorem select_vm_price_permutation
    (records records' : list PriceRecord) (isWindows : bool) :
  Permutation records records' ->
  option_map price (select_vm_price records isWindows)
  = option_map price (select_vm_price records' isWindows)
  /\ ((forall a b, In a records -> In b records ->
                   Spec.vm_predicate isWindows a = true ->
                   Spec.vm_predicate isWindows b = true ->
                   price a = price b -> a = b) ->
      select_vm_price records isWindows = select_vm_price records' isWindows)
  /\ (forall r, select_vm_price records isWindows = Some r ->
        hd_error (filter (fun x => Spec.vm_predicate isWindows x
                                   && same_key price r x) records) = Some r).
Proof.
  intros P.
  assert (forall r, select_vm_price records isWindows = Some r ->
            hd_error (filter (fun x => Spec.vm_predicate isWindows x
                                       && same_key price r x) records) = Some r)
    as Hfirst.
  { unfold select_vm_price. intros r H.
    destruct (filter (vm_is_match isWindows) records) as [|m ms] eqn:E;
      [discriminate|].
    rewrite <- E in H. apply list_sort_head_first in H.
    rewrite filter_twice in H. rewrite <- H. f_equal.
    apply filter_ext. intros x. now rewrite vm_is_match_spec. }
  unfold select_vm_price in *.
  pose proof (filter_perm (vm_is_match isWindows) _ _ P) as PF.
  destruct (filter (vm_is_match isWindows) records) as [|m ms] eqn:E.
  - apply Permutation_nil in PF. rewrite PF. repeat split. discriminate.
  - destruct (filter (vm_is_match isWindows) records') as [|m' ms'] eqn:E'.
    + apply Permutation_sym, Permutation_nil in PF. discriminate.
    + rewrite <- E, <- E'. rewrite <- E in Hfirst.
      assert (filter (vm_is_match isWindows) records <> []) as Hne
          by (rewrite E; discriminate).
      assert (filter (vm_is_match isWindows) records' <> []) as Hne'
          by (rewrite E'; discriminate).
      destruct (sorted_filter_head price true _ _ Hne) as (x & Hx & _).
      destruct (sorted_filter_head price true _ _ Hne') as (x' & Hx' & _).
      destruct (sorted_filter_head_perm price true _ _ _ _ _ P Hx Hx')
        as (Hk & Hin & Hin' & Hp & Hp').
      rewrite Hx, Hx' in *. split; [|split].
      * simpl. now rewrite Hk.
      * intros Huniq. f_equal.
        rewrite vm_is_match_spec in Hp, Hp'. now apply Huniq.
      * exact Hfirst.
Qed.

Lemma select_vm_price_permutation_witness :
  Permutation [Sample.vm_windows_cheap; Sample.vm_windows; Sample.vm_spot]
              [Sample.vm_spot; Sample.vm_windows; Sample.vm_windows_cheap]
  /\ select_vm_price [Sample.vm_windows_cheap; Sample.vm_windows; Sample.vm_spot] true
     = select_vm_price [Sample.vm_spot; Sample.vm_windows; Sample.vm_windows_cheap] true.
Proof.
  assert (Permutation [Sample.vm_windows_cheap; Sample.vm_windows; Sample.vm_spot]
                      [Sample.vm_spot; Sample.vm_windows; Sample.vm_windows_cheap]) as P.
  { apply (Permutation_rev [Sample.vm_windows_cheap; Sample.vm_windows; Sample.vm_spot]). }
  split; [exact P|].
  apply (proj1 (proj2 (select_vm_price_permutation _ _ true P))).
  intros a b Ha Hb Pa Pb Hab.
  simpl in Ha, Hb.
  destruct Ha as [<-|[<-|[<-|[]]]]; destruct Hb as [<-|[<-|[<-|[]]]];
    try reflexivity; try discriminate Pa; try discriminate Pb;
    vm_compute in Hab; discriminate Hab.
Defined.

(** ** Managed-disk price selection *)

Example select_disk_lrs :
  select_disk_price [Sample.disk_zrs; Sample.disk_mount; Sample.disk_lrs] "LRS"
  = Some Sample.disk_lrs.
Proof. reflexivity. Qed.

Example select_disk_no_fallback :
  select_disk_price [Sample.disk_lrs; Sample.disk_mount] "zrs" = None.
Proof. reflexivity. Qed.

(** C3. For a redundancy that is "lrs" or "zrs" up to case,
    [select_disk_price] is [None] exactly when no record satisfies the
    predicate of section 4.3 (type "Consumption", unit containing "month"
    whatever the case, product name containing "Premium SSD Managed
    Disks", meter name containing the redundancy code whatever the case);
    otherwise it is a satisfying record of the list of maximal price
    (0 when missing).  A record returned for "lrs" has "lrs" in its meter
    name, so it is never one that names "zrs" and not "lrs", and the other
    way round. *)
Theorem select_disk_price_correct (records : list PriceRecord) (redundancy : string) :
  lower redundancy = "lrs" \/ lower redundancy = "zrs" ->
  (select_disk_price records redundancy = None <->
   forall r, In r records -> Spec.disk_predicate redundancy r = false)
  /\ ((exists r, In r records /\ Spec.disk_predicate redundancy r = true) ->
      exists r, select_disk_price records redundancy = Some r)
  /\ (forall r, select_disk_price records redundancy = Some r ->
        In r records /\ Spec.disk_predicate redundancy r = true /\
        (forall r', In r' records -> Spec.disk_predicate redundancy r' = true ->
                    (price r' <= price r)%Qc) /\
        (lower redundancy = "lrs" ->
         ~ (Spec.contains_ci "zrs" (Spec.text (meterName r)) = true /\
            Spec.contains_ci "lrs" (Spec.text (meterName r)) = false)) /\
        (lower redundancy = "zrs" ->
         ~ (Spec.contains_ci "lrs" (Spec.text (meterName r)) = true /\
            Spec.contains_ci "zrs" (Spec.text (meterName r)) = false))).
Proof.
  intros Hred. unfold select_disk_price.
  assert (forall r, disk_is_match (lower redundancy) r = Spec.disk_predicate redundancy r)
    as Hspec by (intros r; now apply disk_is_match_spec).
  destruct (filter (disk_is_match (lower redundancy)) records) as [|m ms] eqn:E.
  - pose proof (proj1 (filter_nil_iff _ _) E) as Hnone.
    split; [|split].
    + split; [|reflexivity]. intros _ r Hr. rewrite <- Hspec. now apply Hnone.
    + intros (r & Hr & Hp). rewrite <- Hspec in Hp.
      rewrite (Hnone r Hr) in Hp. discriminate.
    + discriminate.
  - rewrite <- E.
    assert (filter (disk_is_match (lower redundancy)) records <> []) as Hne
        by (rewrite E; discriminate).
    destruct (sorted_filter_head price true _ _ Hne) as (x & Hx & Hin & Hp & Hbest).
    rewrite Hx. split; [|split].
    + split; [discriminate|]. intros Hnone.
      specialize (Hnone x Hin). rewrite <- Hspec in Hnone. congruence.
    + intros _. now exists x.
    + intros r [= <-].
      split; [assumption|]. split; [now rewrite <- Hspec|].
      split.
      { intros r' Hr' Hp'. rewrite <- Hspec in Hp'. exact (Hbest r' Hr' Hp'). }
      rewrite Hspec in Hp. unfold Spec.disk_predicate in Hp.
      apply andb_true_iff in Hp as [_ Hm].
      unfold Spec.contains_ci in *.
      split; intros Hl; rewrite Hl in Hm; intros [_ Hno];
        [change (lower "lrs") with "lrs" in Hno
        |change (lower "zrs") with "zrs" in Hno];
        congruence.
Qed.

Lemma select_disk_price_correct_witness :
  (lower "LRS" = "lrs" \/ lower "LRS" = "zrs")
  /\ select_disk_price [Sample.disk_zrs; Sample.disk_mount; Sample.disk_lrs] "LRS"
     = Some Sample.disk_lrs
  /\ Spec.disk_predicate "LRS" Sample.disk_lrs = true
  /\ (price Sample.disk_mount <= price Sample.disk_lrs)%Qc.
Proof.
  assert (lower "LRS" = "lrs" \/ lower "LRS" = "zrs") as Hred by (left; reflexivity).
  split; [exact Hred|]. split; [reflexivity|].
  destruct (select_disk_price_correct
              [Sample.disk_zrs; Sample.disk_mount; Sample.disk_lrs] "LRS" Hred)
    as (_ & _ & Hsome).
  destruct (Hsome Sample.disk_lrs eq_refl) as (_ & Hp & Hmax & _).
  split; [exact Hp|].
  apply Hmax; [simpl; tauto|reflexivity].
Defined.

(** ** Running a computation *)

Lemma bind_run {A B : Type} (m : M A) (k : A -> M B) (cat : Catalog) :
  bind m k cat =
  match m cat with
  | (inl e, log) => (inl e, log)
  | (inr a, log) => (fst (k a cat), (log ++ snd (k a cat))%list)
  end.
Proof.
  unfold bind. destruct (m cat) as [[e|a] log]; [reflexivity|].
  now destruct (k a cat).
Qed.

Lemma fetch_prices_run (f currency : string) (cat : Catalog) :
  fetch_prices f currency cat =
  (match fetch_all cat f currency with
   | Some items => inr items
   | None => inl RequestException
   end, [(f, currency)]).
Proof. reflexivity. Qed.

(** ** The inter-zone rate finder *)

(** One turn of the loop over the filters. *)
Lemma find_in_filters_step (f : string) (rest : list string) (currency : string)
    (cat : Catalog) :
  find_in_filters (f :: rest) currency cat =
  match fetch_all cat f currency with
  | None => (inl RequestException, [(f, currency)])
  | Some recs =>
      match filter is_candidate recs with
      | [] => (fst (find_in_filters rest currency cat),
               (f, currency) :: snd (find_in_filters rest currency cat))
      | _ :: _ => (inr (hd_error (list_sort price false (filter is_candidate recs))),
                   [(f, currency)])
      end
  end.
Proof.
  cbn [find_in_filters]. rewrite bind_run, fetch_prices_run.
  destruct (fetch_all cat f currency) as [recs|]; [|reflexivity].
  destruct (filter is_candidate recs); reflexivity.
Qed.

Lemma candidates_nil_iff (recs : list PriceRecord) :
  filter is_candidate recs = [] <-> Spec.no_candidate recs.
Proof.
  rewrite filter_nil_iff. unfold Spec.no_candidate.
  split; intros H r Hr; specialize (H r Hr);
    [rewrite <- is_candidate_spec|rewrite is_candidate_spec]; exact H.
Qed.

Lemma candidates_lowest (recs : list PriceRecord) :
  filter is_candidate recs <> [] ->
  exists r, hd_error (list_sort price false (filter is_candidate recs)) = Some r /\
            Spec.lowest_candidate r recs.
Proof.
  intros Hne.
  destruct (sorted_filter_head price false _ _ Hne) as (r & Hr & Hin & Hp & Hbest).
  exists r. split; [exact Hr|].
  unfold Spec.lowest_candidate. rewrite <- is_candidate_spec.
  repeat split; try assumption.
  intros r' Hr' Hp'. rewrite <- is_candidate_spec in Hp'.
  exact (Hbest r' Hr' Hp').
Qed.

Lemma has_candidate_filter (recs : list PriceRecord) :
  Spec.has_candidate recs -> filter is_candidate recs <> [].
Proof.
  intros (r & Hr & Hp) E. apply candidates_nil_iff in E.
  rewrite (E r Hr) in Hp. discriminate.
Qed.

Example interzone_min_price :
  result (find_interzone_bandwidth_rate "eastus2" "USD")
         (Sample.catalog [Sample.zone_a; Sample.zone_b; Sample.zone_c])
  = inr (Some Sample.zone_c)
  /\ price Sample.zone_c = Q2Qc 0.005.
Proof. split; reflexivity. Qed.

Example interzone_none :
  find_interzone_bandwidth_rate "eastus2" "USD" (Sample.catalog [])
  = (inr None,
     [("serviceFamily eq 'Networking' and armRegionName eq 'eastus2' and priceType eq 'Consumption'", "USD");
      ("serviceName eq 'Bandwidth' and armRegionName eq 'eastus2' and priceType eq 'Consumption'", "USD")]).
Proof. reflexivity. Qed.

(** C4. [find_interzone_bandwidth_rate] queries the service family
    "Networking" first and the service name "Bandwidth" second, and the
    second only when the first answered without a candidate.  A candidate
    is a record whose unit contains "gb", whose product name contains
    "bandwidth" and whose meter name contains "zone", "inter-zone" or
    "inter zone", whatever the case.  The result is a lowest-priced
    candidate of the first query that has one, and [None] when neither
    query has one. *)
Theorem find_interzone_bandwidth_rate_correct
    (cat : Catalog) (region currency : string) :
  let f1 := "serviceFamily eq 'Networking' and armRegionName eq '" ++ region
              ++ "' and priceType eq 'Consumption'" in
  let f2 := "serviceName eq 'Bandwidth' and armRegionName eq '" ++ region
              ++ "' and priceType eq 'Consumption'" in
  let run := find_interzone_bandwidth_rate region currency in
  (issued run cat = [(f1, currency)]
   \/ issued run cat = [(f1, currency); (f2, currency)])
  /\ (issued run cat = [(f1, currency); (f2, currency)] ->
      exists recs1, fetch_all cat f1 currency = Some recs1 /\ Spec.no_candidate recs1)
  /\ (forall recs1,
        fetch_all cat f1 currency = Some recs1 -> Spec.has_candidate recs1 ->
        exists r, result run cat = inr (Some r) /\ Spec.lowest_candidate r recs1
                  /\ issued run cat = [(f1, currency)])
  /\ (forall recs1 recs2,
        fetch_all cat f1 currency = Some recs1 -> Spec.no_candidate recs1 ->
        fetch_all cat f2 currency = Some recs2 -> Spec.has_candidate recs2 ->
        exists r, result run cat = inr (Some r) /\ Spec.lowest_candidate r recs2)
  /\ (forall recs1 recs2,
        fetch_all cat f1 currency = Some recs1 -> Spec.no_candidate recs1 ->
        fetch_all cat f2 currency = Some recs2 -> Spec.no_candidate recs2 ->
        result run cat = inr None).
Proof.
  intros f1 f2 run. subst run.
  unfold result, issued, find_interzone_bandwidth_rate, interzone_filters.
  fold f1 f2. rewrite !find_in_filters_step. cbn [find_in_filters ret].
  destruct (fetch_all cat f1 currency) as [recs1|] eqn:C1.
  2:{ cbn [fst snd]. split; [now left|]. split; [discriminate|].
      repeat split; discriminate. }
  destruct (filter is_candidate recs1) as [|c1 cs1] eqn:E1.
  - (* the first query has no candidate *)
    pose proof (proj1 (candidates_nil_iff recs1) E1) as N1.
    assert (forall recs, Some recs1 = Some recs -> Spec.has_candidate recs -> False)
      as Hno1.
    { intros recs [= <-] H. now apply has_candidate_filter in H. }
    destruct (fetch_all cat f2 currency) as [recs2|] eqn:C2.
    2:{ cbn [fst snd]. split; [now right|]. split; [now exists recs1|].
        split; [intros recs H1 H2; destruct (Hno1 recs H1 H2)|].
        split; discriminate. }
    destruct (filter is_candidate recs2) as [|c2 cs2] eqn:E2; cbn [fst snd].
    + split; [now right|]. split; [now exists recs1|].
      split; [intros recs H1 H2; destruct (Hno1 recs H1 H2)|].
      split; [|reflexivity].
      intros r1 r2 _ _ [= <-] H. apply has_candidate_filter in H. contradiction.
    + split; [now right|]. split; [now exists recs1|].
      split; [intros recs H1 H2; destruct (Hno1 recs H1 H2)|].
      assert (filter is_candidate recs2 <> []) as Hne by (rewrite E2; discriminate).
      destruct (candidates_lowest recs2 Hne) as (r & Hr & Hlow).
      rewrite E2 in Hr. split.
      * intros r1 r2 _ _ [= <-] _. exists r. now rewrite Hr.
      * intros r1 r2 _ _ [= <-] H. apply candidates_nil_iff in H. congruence.
  - (* the first query has a candidate *)
    cbn [fst snd].
    assert (filter is_candidate recs1 <> []) as Hne by (rewrite E1; discriminate).
    destruct (candidates_lowest recs1 Hne) as (r & Hr & Hlow).
    rewrite E1 in Hr.
    assert (forall recs, Some recs1 = Some recs -> Spec.no_candidate recs -> False)
      as Hyes.
    { intros recs [= <-] H. apply candidates_nil_iff in H. congruence. }
    split; [now left|]. split; [discriminate|].
    split; [intros recs [= <-] _; exists r; now rewrite Hr|].
    split; intros r1 r2 H1 H2; destruct (Hyes r1 H1 H2).
Qed.

Lemma find_in_filters_candidate (filters : list string) (currency : string)
    (cat : Catalog) (r : PriceRecord) :
  result (find_in_filters filters currency) cat = inr (Some r) ->
  is_candidate r = true.
Proof.
  unfold result. induction filters as [|f rest IH].
  - discriminate.
  - rewrite find_in_filters_step.
    destruct (fetch_all cat f currency) as [recs|]; [|discriminate].
    destruct (filter is_candidate recs) as [|c cs] eqn:E; [exact IH|].
    cbn [fst]. intros [= H].
    assert (filter is_candidate recs <> []) as Hne by (rewrite E; discriminate).
    destruct (sorted_filter_head price false _ _ Hne) as (x & Hx & _ & Hp & _).
    rewrite E in Hx.
    assert (Some x = Some r) as Hxr by (rewrite <- Hx; exact H).
    now injection Hxr as <-.
Qed.

(** A candidate has a unit of measure, so as a [dict] it is not empty:
    [if iz:] tests that a record was found. *)
Lemma candidate_truthy (r : PriceRecord) : is_candidate r = true -> dict_truthy r = true.
Proof.
  unfold is_candidate, dict_truthy.
  destruct (unitOfMeasure r); cbn; try discriminate.
  intros _. now rewrite orb_true_r.
Qed.

Lemma interzone_truthy (region currency : string) (cat : Catalog)
    (iz : option PriceRecord) :
  result (find_interzone_bandwidth_rate region currency) cat = inr iz ->
  truthy iz = match iz with Some _ => true | None => false end.
Proof.
  destruct iz as [r|]; [|reflexivity]. intros H.
  apply find_in_filters_candidate in H. now apply candidate_truthy.
Qed.

(** ** The price lookups *)

Lemma get_vm_hourly_price_run (region vm_size : string) (windows : bool)
    (currency : string) (cat : Catalog) :
  get_vm_hourly_price region vm_size windows currency cat =
  (match fetch_all cat (vm_filter region) currency with
   | None => inl RequestException
   | Some recs =>
       match filter_exn (size_matches (target_lower vm_size)) recs with
       | inl e => inl e
       | inr filtered => inr (select_vm_price filtered windows)
       end
   end,
   [(vm_filter region, currency)]).
Proof.
  unfold get_vm_hourly_price. rewrite bind_run, fetch_prices_run.
  destruct (fetch_all cat (vm_filter region) currency) as [recs|]; [|reflexivity].
  rewrite bind_run. unfold lift.
  destruct (filter_exn (size_matches (target_lower vm_size)) recs) as [e|filtered];
    [reflexivity|].
  destruct filtered; reflexivity.
Qed.

Lemma get_disk_monthly_price_run (region disk_sku redundancy currency : string)
    (cat : Catalog) :
  get_disk_monthly_price region disk_sku redundancy currency cat =
  (match fetch_all cat (disk_filter region disk_sku) currency with
   | None => inl RequestException
   | Some recs => inr (select_disk_price recs redundancy)
   end,
   [(disk_filter region disk_sku, currency)]).
Proof.
  unfold get_disk_monthly_price. rewrite bind_run, fetch_prices_run.
  destruct (fetch_all cat (disk_filter region disk_sku) currency); reflexivity.
Qed.

Lemma size_matches_total (t : string) (r : PriceRecord) :
  skuName r <> Null -> armSkuName r <> Null ->
  size_matches t r
  = inr (contains t (lower (get_or_empty (skuName r)))
         || contains t (lower (get_or_empty (armSkuName r)))).
Proof.
  unfold size_matches, get_default, get_or_empty.
  destruct (skuName r), (armSkuName r); try contradiction; intros _ _;
    match goal with
    | |- context [if ?c then _ else _] => destruct c
    end; reflexivity.
Qed.

(** The comprehension raises on no record whose SKU keys are strings or
    absent, and is then the plain filter. *)
Lemma filter_exn_total (t : string) (recs : list PriceRecord) :
  Forall (fun r => skuName r <> Null /\ armSkuName r <> Null) recs ->
  filter_exn (size_matches t) recs
  = inr (filter (fun r => contains t (lower (get_or_empty (skuName r)))
                           || contains t (lower (get_or_empty (armSkuName r)))) recs).
Proof.
  induction 1 as [|r recs [Hs Ha] _ IH]; [reflexivity|].
  cbn [filter_exn filter]. rewrite IH, (size_matches_total t r Hs Ha).
  reflexivity.
Qed.

(** ** Narrowing the VM records to the requested size *)

Section Unchanged.

Variable f : ascii -> ascii.

Lemma map_chars_cons (c : ascii) (s : string) :
  map_chars f (String c s) = String c s -> f c = c /\ map_chars f s = s.
Proof. cbn [map_chars]. intros [= H1 H2]. now split. Qed.

Lemma replace_from_unchanged (old : string) (k : nat) (s : string) :
  map_chars f s = s ->
  map_chars f (replace_from old "" k s) = replace_from old "" k s.
Proof.
  revert k. induction s as [|c s IH]; intros k H; [reflexivity|].
  apply map_chars_cons in H as [Hc Hs]. cbn [replace_from].
  destruct k as [|k]; [|now apply IH].
  destruct (startswith old (String c s)).
  - cbn [append]. now apply IH.
  - cbn [map_chars]. rewrite Hc. f_equal. now apply IH.
Qed.

Lemma lstrip_unchanged (s : string) :
  map_chars f s = s -> map_chars f (lstrip s) = lstrip s.
Proof.
  induction s as [|c s IH]; intros H; [reflexivity|]. cbn [lstrip].
  destruct (is_space c); [|exact H].
  apply map_chars_cons in H as [_ Hs]. now apply IH.
Qed.

Lemma rstrip_unchanged (s : string) :
  map_chars f s = s -> map_chars f (rstrip s) = rstrip s.
Proof.
  induction s as [|c s IH]; intros H; [reflexivity|].
  apply map_chars_cons in H as [Hc Hs]. specialize (IH Hs). cbn [rstrip].
  destruct (rstrip s) as [|d t].
  - destruct (is_space c); [reflexivity|]. cbn [map_chars]. now rewrite Hc.
  - cbn [map_chars] in *. now rewrite Hc, IH.
Qed.

End Unchanged.

(** The normalised size is in lower case. *)
Lemma target_lower_is_lower (vm_size : string) :
  lower (target_lower vm_size) = target_lower vm_size.
Proof.
  unfold target_lower, strip, replace, lower.
  apply rstrip_unchanged, lstrip_unchanged, replace_from_unchanged.
  apply lower_idempotent.
Qed.

Example target_lower_ex :
  target_lower "Standard_D8s_v5" = "d8s_v5" /\
  target_lower " D8s v5 " = "d8s v5" /\
  target_lower "D8s Standard_v5" = "d8s v5" /\
  Spec.normalize_size "Standard_D8s_v5" = "d8s_v5" /\
  Spec.normalize_size "D8s Standard_v5" = "d8s standard_v5".
Proof. repeat split; reflexivity. Qed.

(** C9, as stated, fails: "standard_" is deleted wherever it occurs, not
    only in front, and blanks around the size are trimmed.  For each of
    two sizes the service has a matching Windows record that the code
    returns, while no fetched record contains the size normalised as the
    specification says. *)
Lemma get_vm_hourly_price_not_leading_prefix :
  let recs := [Sample.vm_linux; Sample.vm_windows_cheap; Sample.vm_spot;
               Sample.vm_other_size; Sample.vm_windows; Sample.vm_devtest] in
  fetch_all (Sample.catalog []) (vm_filter "eastus2") "USD" = Some recs
  /\ result (get_vm_hourly_price "eastus2" "D8s Standard_v5" true "USD")
            (Sample.catalog []) = inr (Some Sample.vm_windows)
  /\ filter (Spec.size_kept (Spec.normalize_size "D8s Standard_v5")) recs = []
  /\ result (get_vm_hourly_price "eastus2" " D8s v5" true "USD")
            (Sample.catalog []) = inr (Some Sample.vm_windows)
  /\ filter (Spec.size_kept (Spec.normalize_size " D8s v5")) recs = [].
Proof. repeat split; reflexivity. Qed.

(** C9, amended. [get_vm_hourly_price] normalises the size by
    lower-casing it, deleting every occurrence of "standard_" and then
    trimming the blanks around it.  When no fetched record has a null SKU
    name or ARM SKU name, it keeps exactly the fetched records whose SKU
    name or ARM SKU name contains the normalised size whatever the case,
    and returns what [select_vm_price] chooses among them, [None] when
    none is kept. *)
Theorem get_vm_hourly_price_narrowing
    (cat : Catalog) (region vm_size : string) (windows : bool) (currency : string)
    (recs : list PriceRecord) :
  fetch_all cat (vm_filter region) currency = Some recs ->
  Forall (fun r => skuName r <> Null /\ armSkuName r <> Null) recs ->
  let size := strip (replace "standard_" "" (lower vm_size)) in
  let kept := filter (Spec.size_kept size) recs in
  result (get_vm_hourly_price region vm_size windows currency) cat
  = inr (select_vm_price kept windows)
  /\ (kept = [] ->
      result (get_vm_hourly_price region vm_size windows currency) cat = inr None).
Proof.
  intros Hcat Hnull size kept.
  assert (size = target_lower vm_size) as Hsize by reflexivity.
  assert (result (get_vm_hourly_price region vm_size windows currency) cat
          = inr (select_vm_price kept windows)) as Hrun.
  { unfold result. rewrite get_vm_hourly_price_run. cbn [fst].
    rewrite Hcat, (filter_exn_total _ _ Hnull). do 2 f_equal.
    unfold kept. apply filter_ext. intros r.
    unfold Spec.size_kept, Spec.contains_ci, Spec.text.
    now rewrite Hsize, target_lower_is_lower. }
  split; [exact Hrun|].
  intros Hkept. rewrite Hrun, Hkept. reflexivity.
Qed.

Lemma get_vm_hourly_price_narrowing_witness :
  result (get_vm_hourly_price "eastus2" " Standard_D8s_v5 " true "USD")
         (Sample.catalog [])
  = inr (Some Sample.vm_windows).
Proof.
  refine (proj1 (get_vm_hourly_price_narrowing
                   (Sample.catalog []) "eastus2" " Standard_D8s_v5 " true "USD"
                   [Sample.vm_linux; Sample.vm_windows_cheap; Sample.vm_spot;
                    Sample.vm_other_size; Sample.vm_windows; Sample.vm_devtest]
                   eq_refl _)).
  repeat (constructor; [split; discriminate|]). constructor.
Defined.

(** ** The cost aggregator *)


(** [compute_primary_costs] in terms of the three lookups it makes. *)
Lemma compute_primary_costs_result
    (region vm_size : string) (windows : bool) (instances : Z)
    (disk_sku disk_redundancy currency : string) (interzone_gb : float)
    (cat : Catalog) :
  result (compute_primary_costs region vm_size windows instances disk_sku
            disk_redundancy currency interzone_gb) cat =
  match result (get_vm_hourly_price region vm_size windows currency) cat with
  | inl e => inl e
  | inr None =>
      inl (RuntimeError ("Could not find VM price for " ++ vm_size ++ " in "
                           ++ region ++ " (windows=" ++ str_of_bool windows ++ ")."))
  | inr (Some vm) =>
      match result (get_disk_monthly_price region disk_sku disk_redundancy currency) cat with
      | inl e => inl e
      | inr None =>
          inl (RuntimeError ("Could not find disk price for " ++ disk_sku ++ " "
                               ++ upper disk_redundancy ++ " in " ++ region ++ "."))
      | inr (Some disk) =>
          let vm_month := (Z2float (instances * 730) * to_float (price vm))%float in
          let disk_month := (Z2float instances * to_float (price disk))%float in
          if PrimFloat.ltb 0 interzone_gb then
            match result (find_interzone_bandwidth_rate region currency) cat with
            | inl e => inl e
            | inr (Some iz) =>
                inr ((0 + vm_month + disk_month
                      + interzone_gb * to_float (price iz))%float,
                     [("compute_vm_month", vm_month); ("os_disks_month", disk_month);
                      ("interzone_data_month",
                       (interzone_gb * to_float (price iz))%float)])
            | inr None =>
                inr ((0 + vm_month + disk_month)%float,
                     [("compute_vm_month", vm_month); ("os_disks_month", disk_month);
                      ("interzone_data_month", 0%float)])
            end
          else
            inr ((0 + vm_month + disk_month)%float,
                 [("compute_vm_month", vm_month); ("os_disks_month", disk_month)])
      end
  end.
Proof.
  unfold result, compute_primary_costs. rewrite bind_run.
  destruct (get_vm_hourly_price region vm_size windows currency cat)
    as [[e|[vm|]] l1]; cbn [fst]; try reflexivity.
  rewrite bind_run.
  destruct (get_disk_monthly_price region disk_sku disk_redundancy currency cat)
    as [[e|[disk|]] l2]; cbn [fst]; try reflexivity.
  destruct (PrimFloat.ltb 0 interzone_gb); [|reflexivity].
  rewrite bind_run.
  destruct (find_interzone_bandwidth_rate region currency cat) as [[e|iz] l3] eqn:F;
    cbn [fst]; [reflexivity|].
  rewrite (interzone_truthy region currency cat iz) by (unfold result; now rewrite F).
  destruct iz; reflexivity.
Qed.

(** Without a positive inter-zone volume the only queries are the VM
    query and the disk query. *)
Lemma compute_primary_costs_issued
    (region vm_size : string) (windows : bool) (instances : Z)
    (disk_sku disk_redundancy currency : string) (interzone_gb : float)
    (cat : Catalog) :
  PrimFloat.ltb 0 interzone_gb = false ->
  incl (issued (compute_primary_costs region vm_size windows instances disk_sku
                  disk_redundancy currency interzone_gb) cat)
       [(vm_filter region, currency); (disk_filter region disk_sku, currency)].
Proof.
  intros Hgb. unfold issued, compute_primary_costs. rewrite bind_run.
  rewrite get_vm_hourly_price_run.
  destruct (fetch_all cat (vm_filter region) currency) as [recs|].
  2:{ cbn [snd]. intros q [<-|[]]. now left. }
  destruct (filter_exn (size_matches (target_lower vm_size)) recs) as [e|filtered].
  { cbn [snd]. intros q [<-|[]]. now left. }
  destruct (select_vm_price filtered windows) as [vm|].
  2:{ cbn [snd raise app]. intros q [<-|[]]. now left. }
  rewrite bind_run, get_disk_monthly_price_run.
  destruct (fetch_all cat (disk_filter region disk_sku) currency) as [drecs|].
  2:{ cbn [snd app]. intros q [<-|[<-|[]]]; [now left|right; now left]. }
  destruct (select_disk_price drecs disk_redundancy) as [disk|].
  2:{ cbn [snd raise app]. intros q [<-|[<-|[]]]; [now left|right; now left]. }
  rewrite Hgb. cbn [snd ret app].
  intros q [<-|[<-|[]]]; [now left|right; now left].
Qed.

Lemma lookup_filters_not_interzone (region region' disk_sku : string) :
  ~ In (vm_filter region) (interzone_filters region')
  /\ ~ In (disk_filter region disk_sku) (interzone_filters region').
Proof.
  unfold vm_filter, disk_filter, interzone_filters.
  split; intros [H|[H|[]]]; cbn in H; discriminate H.
Qed.

(** ** DR topology *)

(** C5. For every primary instance count [n] (negative counts included),
    the posture "cold" gives 0 DR compute instances and [n] DR disks,
    "warm" gives 1 and 1, "hot" gives [n] and [n]. *)
Theorem dr_topology (n : Z) :
  (dr_instances "cold" n = 0%Z /\ disk_count "cold" n = n)
  /\ (dr_instances "warm" n = 1%Z /\ disk_count "warm" n = 1%Z)
  /\ (dr_instances "hot" n = n /\ disk_count "hot" n = n).
Proof. repeat split; reflexivity. Qed.

Example dr_topology_4 :
  (dr_instances "cold" 4, disk_count "cold" 4) = (0, 4)%Z /\
  (dr_instances "warm" 4, disk_count "warm" 4) = (1, 1)%Z /\
  (dr_instances "hot" 4, disk_count "hot" 4) = (4, 4)%Z.
Proof. repeat split; reflexivity. Qed.

(** ** Failure of a required lookup *)

(** C6. When the VM lookup selects no record, or selects one and the
    disk lookup then selects none, [compute_primary_costs] raises the
    aggregator's error ([RuntimeError], the specification's
    PricingNotFoundError) and returns no total and no breakdown. *)
Theorem compute_primary_costs_not_found
    (region vm_size : string) (windows : bool) (instances : Z)
    (disk_sku disk_redundancy currency : string) (interzone_gb : float)
    (cat : Catalog) :
  result (get_vm_hourly_price region vm_size windows currency) cat = inr None
  \/ ((exists vm,
         result (get_vm_hourly_price region vm_size windows currency) cat
         = inr (Some vm))
      /\ result (get_disk_monthly_price region disk_sku disk_redundancy currency) cat
         = inr None) ->
  (exists msg,
     result (compute_primary_costs region vm_size windows instances disk_sku
               disk_redundancy currency interzone_gb) cat
     = inl (RuntimeError msg))
  /\ (forall total details,
        result (compute_primary_costs region vm_size windows instances disk_sku
                  disk_redundancy currency interzone_gb) cat
        <> inr (total, details)).
Proof.
  intros H. rewrite compute_primary_costs_result.
  destruct H as [Hvm|[[vm Hvm] Hdisk]]; rewrite Hvm; [|rewrite Hdisk];
    (split; [eexists; reflexivity|discriminate]).
Qed.

Lemma compute_primary_costs_not_found_witness :
  result (compute_primary_costs "eastus2" "Z99" true 2 "P10" "lrs" "USD" 0%float)
         (Sample.catalog [])
  = inl (RuntimeError "Could not find VM price for Z99 in eastus2 (windows=True).")
  /\ result (compute_primary_costs "eastus2" "D8s v5" true 2 "P99" "lrs" "USD" 0%float)
            (Sample.catalog [])
     = inl (RuntimeError "Could not find disk price for P99 LRS in eastus2.").
Proof.
  split.
  - destruct (compute_primary_costs_not_found
                "eastus2" "Z99" true 2 "P10" "lrs" "USD" 0%float (Sample.catalog [])
                (or_introl eq_refl)) as [[msg Hmsg] _].
    rewrite Hmsg. vm_compute in Hmsg. symmetry. exact Hmsg.
  - destruct (compute_primary_costs_not_found
                "eastus2" "D8s v5" true 2 "P99" "lrs" "USD" 0%float (Sample.catalog [])
                (or_intror (conj (ex_intro _ Sample.vm_windows eq_refl) eq_refl)))
      as [[msg Hmsg] _].
    rewrite Hmsg. vm_compute in Hmsg. symmetry. exact Hmsg.
Defined.

(** ** The inter-zone component *)

Example interzone_found :
  exists total details,
    result (compute_primary_costs "eastus2" "D8s v5" true 2 "P10" "lrs" "USD" 100)
           (Sample.catalog [Sample.zone_a; Sample.zone_b]) = inr (total, details)
    /\ details = [("compute_vm_month", 1097.92%float);
                  ("os_disks_month", 39.42%float);
                  ("interzone_data_month", 1%float)]
    /\ total = 1138.3400000000001%float.
Proof.
  destruct (result (compute_primary_costs "eastus2" "D8s v5" true 2 "P10" "lrs" "USD"
                      100) (Sample.catalog [Sample.zone_a; Sample.zone_b]))
    as [e|[total details]] eqn:E; vm_compute in E; [discriminate E|].
  exists total, details. injection E as <- <-.
  repeat split; reflexivity.
Qed.

(** C7. When the configured inter-zone volume is positive and the finder
    finds no candidate, [compute_primary_costs] does not fail for that
    reason (it returns as soon as the VM and the disk lookups select a
    record), and what it returns is a breakdown that holds the key
    [interzone_data_month] with the amount 0, after the components of the
    run without inter-zone traffic, and the same total as that run.  With
    a volume of 0 the inter-zone queries are not issued at all. *)
Theorem interzone_absent_is_zero
    (region vm_size : string) (windows : bool) (instances : Z)
    (disk_sku disk_redundancy currency : string) (interzone_gb : float)
    (cat : Catalog) :
  (PrimFloat.ltb 0 interzone_gb = true ->
   result (find_interzone_bandwidth_rate region currency) cat = inr None ->
   (forall vm disk,
      result (get_vm_hourly_price region vm_size windows currency) cat
      = inr (Some vm) ->
      result (get_disk_monthly_price region disk_sku disk_redundancy currency) cat
      = inr (Some disk) ->
      exists total details,
        result (compute_primary_costs region vm_size windows instances disk_sku
                  disk_redundancy currency interzone_gb) cat
        = inr (total, details))
   /\ (forall total details,
         result (compute_primary_costs region vm_size windows instances disk_sku
                   disk_redundancy currency interzone_gb) cat
         = inr (total, details) ->
         dict_get "interzone_data_month" details = Some 0%float
         /\ exists details0,
              result (compute_primary_costs region vm_size windows instances
                        disk_sku disk_redundancy currency 0%float) cat
              = inr (total, details0)
              /\ dict_get "interzone_data_month" details0 = None
              /\ details = (details0 ++ [("interzone_data_month", 0%float)])%list))
  /\ (forall q,
        In q (issued (compute_primary_costs region vm_size windows instances
                        disk_sku disk_redundancy currency 0%float) cat) ->
        ~ In (fst q) (interzone_filters region)).
Proof.
  split.
  - intros Hgb Hnone.
    rewrite !compute_primary_costs_result. split.
    + intros vm disk -> ->. cbv zeta. rewrite Hgb, Hnone. eauto.
    + intros total details Hrun.
      destruct (result (get_vm_hourly_price region vm_size windows currency) cat)
        as [e|[vm|]]; try discriminate.
      destruct (result (get_disk_monthly_price region disk_sku disk_redundancy
                          currency) cat)
        as [e|[disk|]]; try discriminate.
      cbv zeta in Hrun. rewrite Hgb, Hnone in Hrun.
      injection Hrun as <- <-.
      split; [reflexivity|].
      eexists. split; [reflexivity|]. split; reflexivity.
  - intros q Hq.
    apply compute_primary_costs_issued in Hq; [|reflexivity].
    destruct (lookup_filters_not_interzone region region disk_sku) as [Hvm Hdisk].
    destruct Hq as [<-|[<-|[]]]; assumption.
Qed.

Lemma interzone_absent_is_zero_witness :
  exists total details,
    result (compute_primary_costs "eastus2" "D8s v5" true 2 "P10" "lrs" "USD"
              100) (Sample.catalog []) = inr (total, details)
    /\ dict_get "interzone_data_month" details = Some 0%float
    /\ map fst details = ["compute_vm_month"; "os_disks_month"; "interzone_data_month"].
Proof.
  assert (PrimFloat.ltb 0 100 = true) as Hgb by reflexivity.
  destruct (proj1 (interzone_absent_is_zero
                     "eastus2" "D8s v5" true 2 "P10" "lrs" "USD" 100%float
                     (Sample.catalog [])) Hgb eq_refl)
    as [Hruns Hzero].
  destruct (Hruns Sample.vm_windows Sample.disk_lrs eq_refl eq_refl)
    as (total & details & E).
  exists total, details. split; [exact E|].
  split; [exact (proj1 (Hzero total details E))|].
  vm_compute in E. injection E as _ <-. reflexivity.
Defined.

(** ** The compute component *)

Lemma zero_times_finite (x : float) :
  float_value x <> None -> (Z2float 0 * x =? 0)%float = true.
Proof.
  intros H. change (Z2float 0) with 0%float.
  rewrite FloatAxioms.eqb_spec, mul_spec. unfold float_value in H.
  destruct (Prim2SF x) as [s|s| |s m e]; try (exfalso; apply H; reflexivity);
    destruct s; reflexivity.
Qed.

(** C8, as stated, fails: the component is a binary64 product, not the
    exact one.  For 5 instances at 1.536 an hour the code stores
    5606.400000000001, which is not the double of 5606.4; its exact
    value is neither 5 * 730 * 1.536 nor 3650 times the exact value of
    the double price. *)
Lemma compute_vm_month_not_exact :
  price Sample.vm_other_size = Q2Qc 1.536
  /\ exists total details c v p,
       result (compute_primary_costs "eastus2" "D16s v5" true 5 "P10" "lrs" "USD" 0)
              (Sample.catalog []) = inr (total, details)
       /\ dict_get "compute_vm_month" details = Some c
       /\ c = 5606.400000000001%float
       /\ (c =? 5606.4)%float = false
       /\ float_value c = Some v
       /\ ~ (v == 5 * 730 * 1.536)%Q
       /\ float_value (to_float (Q2Qc 1.536)) = Some p
       /\ ~ (v == 3650 * p)%Q.
Proof.
  split; [reflexivity|].
  destruct (result (compute_primary_costs "eastus2" "D16s v5" true 5 "P10" "lrs" "USD"
                      0) (Sample.catalog []))
    as [e|[total details]] eqn:E; vm_compute in E; [discriminate E|].
  injection E as <- <-.
  do 5 eexists.
  split; [reflexivity|]. split; [reflexivity|]. split; [reflexivity|].
  split; [reflexivity|]. split; [reflexivity|].
  split; [intros H; vm_compute in H; discriminate H|].
  split; [reflexivity|].
  intros H; vm_compute in H; discriminate H.
Qed.

(** C8, amended. In the breakdown of a [compute_primary_costs] that
    returns, the component [compute_vm_month] is the binary64 product of
    [instances * 730], converted to a float, and the unit price [p] of
    the record the VM lookup selected (the double of its price, of 0
    when the record has none), for every integer instance count: it is
    that product rounded to the nearest double.  It is zero for no
    instance when [p] is finite, and the double 2242.56 for 2 instances
    at 1.536 an hour. *)
Theorem compute_vm_month_binary64
    (region vm_size : string) (windows : bool) (instances : Z)
    (disk_sku disk_redundancy currency : string) (interzone_gb : float)
    (cat : Catalog) (total : float) (details : Dict) :
  result (compute_primary_costs region vm_size windows instances disk_sku
            disk_redundancy currency interzone_gb) cat = inr (total, details) ->
  exists vm,
    result (get_vm_hourly_price region vm_size windows currency) cat = inr (Some vm)
    /\ dict_get "compute_vm_month" details
       = Some (Z2float (instances * 730) * to_float (price vm))%float
    /\ (instances = 0%Z -> float_value (to_float (price vm)) <> None ->
        exists c, dict_get "compute_vm_month" details = Some c
                  /\ (c =? 0)%float = true)
    /\ (instances = 2%Z -> price vm = Q2Qc 1.536 ->
        dict_get "compute_vm_month" details = Some 2242.56%float).
Proof.
  intros Hrun. rewrite compute_primary_costs_result in Hrun.
  destruct (result (get_vm_hourly_price region vm_size windows currency) cat)
    as [e|[vm|]]; try discriminate.
  exists vm. split; [reflexivity|].
  assert (dict_get "compute_vm_month" details
          = Some (Z2float (instances * 730) * to_float (price vm))%float) as Hget.
  { destruct (result (get_disk_monthly_price region disk_sku disk_redundancy currency) cat)
      as [e|[disk|]]; try discriminate.
    cbv zeta in Hrun.
    destruct (PrimFloat.ltb 0 interzone_gb);
      [destruct (result (find_interzone_bandwidth_rate region currency) cat)
        as [e|[iz|]]; try discriminate|];
      injection Hrun as _ <-; reflexivity. }
  split; [exact Hget|]. rewrite Hget. split.
  - intros -> Hp. eexists. split; [reflexivity|].
    now apply zero_times_finite.
  - intros -> ->. reflexivity.
Qed.

Lemma compute_vm_month_binary64_witness :
  exists total details,
    result (compute_primary_costs "eastus2" "D16s v5" true 2 "P10" "lrs" "USD" 0)
           (Sample.catalog []) = inr (total, details)
    /\ dict_get "compute_vm_month" details = Some 2242.56%float.
Proof.
  destruct (result (compute_primary_costs "eastus2" "D16s v5" true 2 "P10" "lrs" "USD"
                      0) (Sample.catalog []))
    as [e|[total details]] eqn:E; [vm_compute in E; discriminate E|].
  exists total, details. split; [reflexivity|].
  destruct (compute_vm_month_binary64
              "eastus2" "D16s v5" true 2 "P10" "lrs" "USD" 0%float
              (Sample.catalog []) total details E)
    as (vm & Hvm & _ & _ & H2).
  apply H2; [reflexivity|].
  vm_compute in Hvm. injection Hvm as <-. reflexivity.
Defined.

(** ** Total and breakdown *)

(** Adding 0.0 leaves every amount as it is, except that it turns -0.0
    into 0.0. *)
Lemma add_zero_r (t : float) :
  (t + 0)%float = t \/ (t = neg_zero /\ (t + 0)%float = 0%float).
Proof.
  destruct (Prim2SF t) as [[|]|s| |s m e] eqn:E.
  - right. split; apply Prim2SF_inj; [now rewrite E|].
    now rewrite add_spec, E.
  - left. apply Prim2SF_inj. now rewrite add_spec, E.
  - left. apply Prim2SF_inj. now rewrite add_spec, E.
  - left. apply Prim2SF_inj. now rewrite add_spec, E.
  - left. apply Prim2SF_inj. now rewrite add_spec, E.
Qed.

(** C10, as stated, fails: every addition of the running total is
    rounded.  For 2 instances and 100 GB the total 1138.3400000000001 is
    not the sum of the three amounts of the breakdown; for 1 instance
    and 10 GB the total 568.7700000000001 is not even the double nearest
    to the sum of the three amounts, which is 568.77. *)
Lemma total_not_exact_sum :
  (exists total details sum value,
     result (compute_primary_costs "eastus2" "D8s v5" true 2 "P10" "lrs" "USD" 100)
            (Sample.catalog [Sample.zone_a; Sample.zone_b]) = inr (total, details)
     /\ details = [("compute_vm_month", 1097.92%float);
                   ("os_disks_month", 39.42%float);
                   ("interzone_data_month", 1%float)]
     /\ total = 1138.3400000000001%float
     /\ exact_sum (map snd details) = Some sum
     /\ float_value total = Some value
     /\ ~ (sum == value)%Q)
  /\ (exists total details sum value nearer,
        result (compute_primary_costs "eastus2" "D8s v5" true 1 "P10" "lrs" "USD" 10)
               (Sample.catalog [Sample.zone_a; Sample.zone_b]) = inr (total, details)
        /\ details = [("compute_vm_month", 548.96%float);
                      ("os_disks_month", 19.71%float);
                      ("interzone_data_month", 0.1%float)]
        /\ total = 568.7700000000001%float
        /\ (total =? 568.77)%float = false
        /\ exact_sum (map snd details) = Some sum
        /\ float_value total = Some value
        /\ float_value 568.77%float = Some nearer
        /\ (Qabs (nearer - sum) < Qabs (value - sum))%Q).
Proof.
  split.
  - destruct (result (compute_primary_costs "eastus2" "D8s v5" true 2 "P10" "lrs"
                        "USD" 100) (Sample.catalog [Sample.zone_a; Sample.zone_b]))
      as [e|[total details]] eqn:E; vm_compute in E; [discriminate E|].
    injection E as <- <-.
    do 4 eexists.
    split; [reflexivity|]. split; [reflexivity|]. split; [reflexivity|].
    split; [reflexivity|]. split; [reflexivity|].
    intros H; vm_compute in H; discriminate H.
  - destruct (result (compute_primary_costs "eastus2" "D8s v5" true 1 "P10" "lrs"
                        "USD" 10) (Sample.catalog [Sample.zone_a; Sample.zone_b]))
      as [e|[total details]] eqn:E; vm_compute in E; [discriminate E|].
    injection E as <- <-.
    do 5 eexists.
    split; [reflexivity|]. split; [reflexivity|]. split; [reflexivity|].
    split; [reflexivity|]. split; [reflexivity|]. split; [reflexivity|].
    split; [reflexivity|].
    vm_compute. reflexivity.
Qed.

(** C10, amended. The total returned by [compute_primary_costs] is the
    running binary64 sum of the amounts it added, taken in the order of
    the breakdown from 0.0, each addition rounded: these are all the
    amounts of the breakdown, or all but the last when that is the 0.0
    recorded for a missing inter-zone rate, which is stored and not
    added.  So the total is the running binary64 sum of all the amounts
    of the breakdown, up to the sign of a zero total. *)
Theorem total_is_running_sum
    (region vm_size : string) (windows : bool) (instances : Z)
    (disk_sku disk_redundancy currency : string) (interzone_gb : float)
    (cat : Catalog) (total : float) (details : Dict) :
  result (compute_primary_costs region vm_size windows instances disk_sku
            disk_redundancy currency interzone_gb) cat = inr (total, details) ->
  (exists added,
     total = dict_sum added
     /\ (details = added
         \/ details = (added ++ [("interzone_data_month", 0%float)])%list))
  /\ (dict_sum details = total
      \/ (total = neg_zero /\ dict_sum details = 0%float)).
Proof.
  intros Hrun. rewrite compute_primary_costs_result in Hrun.
  destruct (result (get_vm_hourly_price region vm_size windows currency) cat)
    as [e|[vm|]]; try discriminate.
  destruct (result (get_disk_monthly_price region disk_sku disk_redundancy currency) cat)
    as [e|[disk|]]; try discriminate.
  cbv zeta in Hrun.
  destruct (PrimFloat.ltb 0 interzone_gb);
    [destruct (result (find_interzone_bandwidth_rate region currency) cat)
      as [e|[iz|]]; try discriminate|];
    injection Hrun as <- <-.
  - split; [|left; reflexivity].
    eexists. split; [|left; reflexivity]. reflexivity.
  - split; [|apply add_zero_r].
    exists [("compute_vm_month",
             (Z2float (instances * 730) * to_float (price vm))%float);
            ("os_disks_month", (Z2float instances * to_float (price disk))%float)].
    split; [reflexivity|right; reflexivity].
  - split; [|left; reflexivity].
    eexists. split; [|left; reflexivity]. reflexivity.
Qed.

Lemma total_is_running_sum_witness :
  exists total details,
    result (compute_primary_costs "eastus2" "D8s v5" true 2 "P10" "lrs" "USD" 100)
           (Sample.catalog [Sample.zone_a; Sample.zone_b]) = inr (total, details)
    /\ total = 1138.3400000000001%float
    /\ (exists added,
          total = dict_sum added
          /\ (details = added
              \/ details = (added ++ [("interzone_data_month", 0%float)])%list))
    /\ (dict_sum details = total
        \/ (total = neg_zero /\ dict_sum details = 0%float)).
Proof.
  destruct (result (compute_primary_costs "eastus2" "D8s v5" true 2 "P10" "lrs" "USD"
                      100) (Sample.catalog [Sample.zone_a; Sample.zone_b]))
    as [e|[total details]] eqn:E; [vm_compute in E; discriminate E|].
  exists total, details. split; [reflexivity|].
  pose proof (total_is_running_sum
                "eastus2" "D8s v5" true 2 "P10" "lrs" "USD" 100%float
                (Sample.catalog [Sample.zone_a; Sample.zone_b]) total details E)
    as Hsum.
  split; [|exact Hsum].
  vm_compute in E. now injection E as <- _.
Defined.

(** ** The DR phase and the outcome of [main] *)

Lemma try_result {A : Type} (m : M A) (cat : Catalog) :
  result (try m) cat = inr (result m cat).
Proof. unfold result, try. now destruct (m cat). Qed.

(** The DR phase in terms of its lookups: the VM lookup is made only for
    a positive DR instance count, and the disks are counted by
    [disk_count]. *)
Lemma dr_costs_result (args : Args) (windows : bool) (k : Z) (cat : Catalog) :
  result (dr_costs args windows k) cat =
  let disk_part (dr_total : float) (dr_details : Dict) :=
    match result (get_disk_monthly_price (args_dr args) (args_os_disk args)
                    (args_disk_redundancy args) (args_currency args)) cat with
    | inl e => inl e
    | inr None =>
        inl (RuntimeError ("Could not find DR disk price for " ++ args_os_disk args
                             ++ " " ++ upper (args_disk_redundancy args) ++ " in "
                             ++ args_dr args ++ "."))
    | inr (Some disk) =>
        let dr_disk_month :=
          (Z2float (disk_count (args_dr_mode args) (args_instances args))
           * to_float (price disk))%float in
        inr ((dr_total + dr_disk_month)%float,
             dict_set "os_disks_month" dr_disk_month dr_details)
    end in
  if (0 <? k)%Z then
    match result (get_vm_hourly_price (args_dr args) (args_vm_size args) windows
                    (args_currency args)) cat with
    | inl e => inl e
    | inr None =>
        inl (RuntimeError ("Could not find DR VM price for " ++ args_vm_size args
                             ++ " in " ++ args_dr args ++ "."))
    | inr (Some vm) =>
        let vm_month := (Z2float (k * 730) * to_float (price vm))%float in
        disk_part (0 + vm_month)%float [("compute_vm_month", vm_month)]
    end
  else disk_part 0%float [].
Proof.
  unfold result, dr_costs. rewrite bind_run.
  destruct (0 <? k)%Z.
  - rewrite bind_run.
    destruct (get_vm_hourly_price (args_dr args) (args_vm_size args) windows
                (args_currency args) cat) as [[e|[vm|]] l1]; cbn [fst raise ret];
      try reflexivity.
    rewrite bind_run.
    destruct (get_disk_monthly_price (args_dr args) (args_os_disk args)
                (args_disk_redundancy args) (args_currency args) cat)
      as [[e|[disk|]] l2]; reflexivity.
  - cbn [ret fst]. rewrite bind_run.
    destruct (get_disk_monthly_price (args_dr args) (args_os_disk args)
                (args_disk_redundancy args) (args_currency args) cat)
      as [[e|[disk|]] l2]; reflexivity.
Qed.

(** [main] never raises: a failure of the primary phase ends it with
    exit code 2, a failure of the DR phase with exit code 3. *)
Lemma main_result (args : Args) (cat : Catalog) :
  result (main args) cat =
  inr (let windows := String.eqb (args_os args) "windows" in
       match result (compute_primary_costs (args_primary args) (args_vm_size args)
                       windows (args_instances args) (args_os_disk args)
                       (args_disk_redundancy args) (args_currency args)
                       (args_interzone_gb args)) cat with
       | inl e => Exit 2 e
       | inr (primary_total, primary_details) =>
           match result (dr_costs args windows
                           (dr_instances (args_dr_mode args) (args_instances args)))
                        cat with
           | inl e => Exit 3 e
           | inr (dr_total, dr_details) =>
               Summary primary_total primary_details dr_total dr_details
           end
       end).
Proof.
  unfold main. cbv zeta. unfold result at 1. rewrite bind_run.
  match goal with
  | |- context [try ?m cat] =>
      pose proof (try_result m cat) as Hp; unfold result at 1 in Hp;
      destruct (try m cat) as [r l]; cbn [fst] in Hp; subst r
  end.
  destruct (result _ cat) as [e|[primary_total primary_details]];
    cbn [fst ret]; [reflexivity|].
  rewrite bind_run.
  match goal with
  | |- context [try ?m cat] =>
      pose proof (try_result m cat) as Hd; unfold result at 1 in Hd;
      destruct (try m cat) as [r' l']; cbn [fst] in Hd; subst r'
  end.
  destruct (result _ cat) as [e|[dr_total dr_details]]; reflexivity.
Qed.

Example main_cold_dr_unpriced :
  result (main (mkArgs "eastus2" "centralus" "D8s v5" "windows" 2 "P10" "lrs"
                       0%float "USD" "cold")) (Sample.catalog [])
  = inr (Exit 3 (RuntimeError "Could not find DR disk price for P10 LRS in centralus.")).
Proof. reflexivity. Qed.

Example main_cold_queries :
  issued (main (mkArgs "eastus2" "eastus2" "D8s v5" "windows" 2 "P10" "lrs"
                       0%float "USD" "cold")) (Sample.catalog [])
  = [(vm_filter "eastus2", "USD"); (disk_filter "eastus2" "P10", "USD");
     (disk_filter "eastus2" "P10", "USD")].
Proof. reflexivity. Qed.

(** ** The paginated fetch *)

Lemma collect_app (results : list PriceRecord) (reply : Reply) :
  collect results reply = option_map (app results) (collect [] reply).
Proof.
  revert results. induction reply as [|items|items next IH]; intros results.
  - reflexivity.
  - reflexivity.
  - cbn [collect app]. rewrite IH, (IH items).
    destruct (collect [] next) as [l|]; [|reflexivity].
    cbn [option_map]. now rewrite app_assoc.
Qed.

(** Pages are combined in the order they are received. *)
Lemma fetch_all_more (cat : Catalog) (f currency : string)
    (items : list PriceRecord) (next : Reply) :
  cat f currency = More items next ->
  fetch_all cat f currency = option_map (app items) (collect [] next).
Proof.
  unfold fetch_all. intros ->. cbn [collect app]. apply collect_app.
Qed.

Example fetch_two_pages :
  fetch_prices (vm_filter "eastus2") "USD" (Sample.catalog [])
  = (inr [Sample.vm_linux; Sample.vm_windows_cheap; Sample.vm_spot;
          Sample.vm_other_size; Sample.vm_windows; Sample.vm_devtest],
     [(vm_filter "eastus2", "USD")]).
Proof. reflexivity. Qed.

(** A page that fails leaves no partial result. *)
Example fetch_broken_page :
  result (fetch_prices (vm_filter "eastus2") "USD") Sample.broken_page
  = inl RequestException
  /\ result (main (mkArgs "eastus2" "centralus" "D8s v5" "windows" 2 "P10" "lrs"
                          0%float "USD" "cold")) Sample.broken_page
     = inr (Exit 2 RequestException).
Proof. split; reflexivity. Qed.

(* ================================================================== *)
(** * Further properties of the code *)

(** ** [fetch_prices]: pages and failures *)

Lemma collect_pages (results : list PriceRecord) (reply : Reply) :
  collect results reply
  = if reply_ok reply then Some (results ++ List.concat (reply_pages reply))%list
    else None.
Proof.
  revert results. induction reply as [|items|items next IH]; intros results.
  - reflexivity.
  - cbn [collect reply_ok reply_pages List.concat]. now rewrite app_nil_r.
  - cbn [collect reply_ok reply_pages List.concat]. rewrite IH.
    destruct (reply_ok next); [|reflexivity]. now rewrite app_assoc.
Qed.

(** X1. [fetch_prices] issues one query; when no page request of the
    chain fails it returns the items of all pages, concatenated in the
    order the pages are received, and when one fails it raises and
    returns none of the items already received. *)
Theorem fetch_prices_pages (cat : Catalog) (filter_expr currency : string) :
  fetch_prices filter_expr currency cat
  = (if reply_ok (cat filter_expr currency)
     then inr (List.concat (reply_pages (cat filter_expr currency)))
     else inl RequestException,
     [(filter_expr, currency)]).
Proof.
  rewrite fetch_prices_run. unfold fetch_all. rewrite collect_pages.
  now destruct (reply_ok (cat filter_expr currency)).
Qed.

(** ** [main]: the order of the two phases *)

Lemma try_issued {A : Type} (m : M A) (cat : Catalog) :
  issued (try m) cat = issued m cat.
Proof. unfold issued, try. now destruct (m cat). Qed.

Lemma try_run {A : Type} (m : M A) (cat : Catalog) :
  try m cat = (inr (result m cat), issued m cat).
Proof. unfold try, result, issued. now destruct (m cat). Qed.

Lemma main_run (args : Args) (cat : Catalog) :
  main args cat =
  let windows := String.eqb (args_os args) "windows" in
  let primary :=
    compute_primary_costs (args_primary args) (args_vm_size args) windows
      (args_instances args) (args_os_disk args) (args_disk_redundancy args)
      (args_currency args) (args_interzone_gb args) in
  let dr :=
    dr_costs args windows (dr_instances (args_dr_mode args) (args_instances args)) in
  match result primary cat with
  | inl e => (inr (Exit 2 e), issued primary cat)
  | inr (total, details) =>
      (inr (match result dr cat with
            | inl e => Exit 3 e
            | inr (dr_total, dr_details) => Summary total details dr_total dr_details
            end),
       (issued primary cat ++ issued dr cat)%list)
  end.
Proof.
  unfold main. cbv zeta. rewrite bind_run, try_run.
  match goal with
  | |- context [result ?m cat] => destruct (result m cat) as [e|[total details]]
  end; cbn [fst snd ret]; [now rewrite app_nil_r|].
  rewrite bind_run, try_run.
  match goal with
  | |- context [result ?m cat] => destruct (result m cat) as [e|[dr_total dr_details]]
  end; cbn [fst snd ret]; now rewrite !app_nil_r.
Qed.

(** X2. [main] never raises.  When the primary phase raises, [main] ends
    with exit code 2 and has issued the queries of the primary phase
    only: the DR phase is not started.  When the primary phase returns,
    the queries of the DR phase follow those of the primary phase, and
    [main] ends with exit code 3 if the DR phase raises and with the
    figures of both phases otherwise. *)
Theorem main_phases (args : Args) (cat : Catalog) :
  let windows := String.eqb (args_os args) "windows" in
  let primary :=
    compute_primary_costs (args_primary args) (args_vm_size args) windows
      (args_instances args) (args_os_disk args) (args_disk_redundancy args)
      (args_currency args) (args_interzone_gb args) in
  let dr :=
    dr_costs args windows (dr_instances (args_dr_mode args) (args_instances args)) in
  (forall e, result primary cat = inl e ->
             main args cat = (inr (Exit 2 e), issued primary cat))
  /\ (forall total details, result primary cat = inr (total, details) ->
        issued (main args) cat = (issued primary cat ++ issued dr cat)%list
        /\ result (main args) cat
           = inr (match result dr cat with
                  | inl e => Exit 3 e
                  | inr (dr_total, dr_details) =>
                      Summary total details dr_total dr_details
                  end)).
Proof.
  intros windows primary dr. subst windows primary dr.
  pose proof (main_run args cat) as H. cbv zeta in H.
  split.
  - intros e He. now rewrite He in H.
  - intros total details He. rewrite He in H.
    change (issued (main args) cat) with (snd (main args cat)).
    change (result (main args) cat) with (fst (main args cat)).
    rewrite H. split; reflexivity.
Qed.

(** ** The DR phase *)

Lemma get_vm_hourly_price_issued (region vm_size : string) (windows : bool)
    (currency : string) (cat : Catalog) :
  issued (get_vm_hourly_price region vm_size windows currency) cat
  = [(vm_filter region, currency)].
Proof. unfold issued. now rewrite get_vm_hourly_price_run. Qed.

Lemma get_disk_monthly_price_issued (region disk_sku redundancy currency : string)
    (cat : Catalog) :
  issued (get_disk_monthly_price region disk_sku redundancy currency) cat
  = [(disk_filter region disk_sku, currency)].
Proof. unfold issued. now rewrite get_disk_monthly_price_run. Qed.

Lemma run_pair {A : Type} (m : M A) (cat : Catalog) :
  m cat = (result m cat, issued m cat).
Proof. unfold result, issued. now destruct (m cat). Qed.

(** The queries of the DR phase. *)
Lemma dr_costs_issued (args : Args) (windows : bool) (k : Z) (cat : Catalog) :
  issued (dr_costs args windows k) cat =
  let vm_query := (vm_filter (args_dr args), args_currency args) in
  let disk_query :=
    (disk_filter (args_dr args) (args_os_disk args), args_currency args) in
  if (0 <? k)%Z then
    match result (get_vm_hourly_price (args_dr args) (args_vm_size args) windows
                    (args_currency args)) cat with
    | inr (Some _) => [vm_query; disk_query]
    | _ => [vm_query]
    end
  else [disk_query].
Proof.
  cbv zeta. unfold issued at 1, dr_costs. rewrite bind_run.
  destruct (0 <? k)%Z.
  - rewrite bind_run.
    rewrite (run_pair (get_vm_hourly_price _ _ _ _) cat),
      get_vm_hourly_price_issued.
    destruct (result (get_vm_hourly_price (args_dr args) (args_vm_size args)
                        windows (args_currency args)) cat) as [e|[vm|]];
      cbn [fst snd raise ret app]; try reflexivity.
    rewrite bind_run.
    rewrite (run_pair (get_disk_monthly_price _ _ _ _) cat),
      get_disk_monthly_price_issued.
    destruct (result (get_disk_monthly_price (args_dr args) (args_os_disk args)
                        (args_disk_redundancy args) (args_currency args)) cat)
      as [e|[disk|]]; reflexivity.
  - cbn [ret fst snd app]. rewrite bind_run.
    rewrite (run_pair (get_disk_monthly_price _ _ _ _) cat),
      get_disk_monthly_price_issued.
    destruct (result (get_disk_monthly_price (args_dr args) (args_os_disk args)
                        (args_disk_redundancy args) (args_currency args)) cat)
      as [e|[disk|]]; reflexivity.
Qed.

(** X3. A DR phase without compute instances (the "cold" posture, or
    "hot" for no primary instance) issues the disk query only: it never
    asks for VM prices, so a VM size that is not sold in the DR region
    does not make it fail; when the disk lookup selects a record, the
    breakdown is the single component [os_disks_month], the binary64
    product of the disk count and the disk price, the total is that
    amount added to 0.0, and there is no [compute_vm_month] key.  For 5
    disks at 19.71 the amount is the double 98.55000000000001. *)
Theorem dr_costs_without_compute (args : Args) (windows : bool) (k : Z)
    (cat : Catalog) :
  (k <= 0)%Z ->
  issued (dr_costs args windows k) cat
  = [(disk_filter (args_dr args) (args_os_disk args), args_currency args)]
  /\ forall disk,
       result (get_disk_monthly_price (args_dr args) (args_os_disk args)
                 (args_disk_redundancy args) (args_currency args)) cat
       = inr (Some disk) ->
       let amount :=
         (Z2float (disk_count (args_dr_mode args) (args_instances args))
          * to_float (price disk))%float in
       result (dr_costs args windows k) cat
       = inr ((0 + amount)%float, [("os_disks_month", amount)]).
Proof.
  intros Hk. assert ((0 <? k)%Z = false) as Hk' by now apply Z.ltb_ge.
  split.
  - rewrite dr_costs_issued. cbv zeta. now rewrite Hk'.
  - intros disk Hdisk amount. rewrite dr_costs_result. cbv zeta.
    rewrite Hk', Hdisk. reflexivity.
Qed.

Lemma dr_costs_without_compute_witness :
  result (dr_costs (Cases.args "Z99" "eastus2" "cold" 5) true
            (dr_instances "cold" 5)) (Sample.catalog [])
  = inr ((0 + Z2float (disk_count "cold" 5) * to_float (price Sample.disk_lrs))%float,
         [("os_disks_month",
           (Z2float (disk_count "cold" 5) * to_float (price Sample.disk_lrs))%float)])
  /\ (Z2float (disk_count "cold" 5) * to_float (price Sample.disk_lrs))%float
     = 98.55000000000001%float
  /\ (98.55000000000001 =? 98.55)%float = false
  /\ result (get_vm_hourly_price "eastus2" "Z99" true "USD") (Sample.catalog [])
     = inr None.
Proof.
  split; [|repeat split; reflexivity].
  refine (proj2 (dr_costs_without_compute
                   (Cases.args "Z99" "eastus2" "cold" 5) true
                   (dr_instances "cold" 5) (Sample.catalog []) _)
                Sample.disk_lrs eq_refl).
  discriminate.
Defined.

(** X4. The total of a DR phase that returns is the running binary64
    sum of the amounts of its breakdown: they are added one by one, in
    insertion order, starting from 0.0, each addition rounded.  For one
    warm instance of the sample size with its disk (548.96 and 19.71)
    the total is the double 568.6700000000001. *)
Theorem dr_total_is_sum_of_breakdown (args : Args) (windows : bool) (k : Z)
    (cat : Catalog) (dr_total : float) (dr_details : Dict) :
  result (dr_costs args windows k) cat = inr (dr_total, dr_details) ->
  dr_total = dict_sum dr_details.
Proof.
  rewrite dr_costs_result. cbv zeta.
  destruct (0 <? k)%Z.
  - destruct (result (get_vm_hourly_price _ _ _ _) cat) as [e|[vm|]];
      try discriminate.
    destruct (result (get_disk_monthly_price _ _ _ _) cat) as [e|[disk|]];
      try discriminate.
    intros [= <- <-]. reflexivity.
  - destruct (result (get_disk_monthly_price _ _ _ _) cat) as [e|[disk|]];
      try discriminate.
    intros [= <- <-]. reflexivity.
Qed.

Lemma dr_total_is_sum_of_breakdown_witness :
  exists dr_total dr_details,
    result (dr_costs (Cases.args "D8s v5" "eastus2" "warm" 2) true
              (dr_instances "warm" 2)) (Sample.catalog [])
    = inr (dr_total, dr_details)
    /\ dr_total = dict_sum dr_details
    /\ dr_total = 568.6700000000001%float.
Proof.
  destruct (result (dr_costs (Cases.args "D8s v5" "eastus2" "warm" 2) true
                      (dr_instances "warm" 2)) (Sample.catalog []))
    as [e|[dr_total dr_details]] eqn:E; [vm_compute in E; discriminate E|].
  exists dr_total, dr_details. split; [reflexivity|]. split.
  - exact (dr_total_is_sum_of_breakdown _ _ _ _ _ _ E).
  - vm_compute in E. injection E as <- _. reflexivity.
Defined.

(** X5. With the posture "hot" and at least one primary instance, the DR
    phase returns exactly the total and the breakdown that
    [compute_primary_costs] returns for the DR region, the same size,
    disk and instance count, and no inter-zone traffic. *)
Theorem hot_dr_mirrors_primary (args : Args) (windows : bool) (cat : Catalog)
    (figures : float * Dict) :
  args_dr_mode args = "hot" ->
  (0 < args_instances args)%Z ->
  result (dr_costs args windows
            (dr_instances (args_dr_mode args) (args_instances args))) cat
  = inr figures
  <->
  result (compute_primary_costs (args_dr args) (args_vm_size args) windows
            (args_instances args) (args_os_disk args) (args_disk_redundancy args)
            (args_currency args) 0%float) cat
  = inr figures.
Proof.
  intros Hmode Hn.
  rewrite dr_costs_result, compute_primary_costs_result, Hmode. cbv zeta.
  change (dr_instances "hot" (args_instances args)) with (args_instances args).
  change (disk_count "hot" (args_instances args)) with (args_instances args).
  rewrite (proj2 (Z.ltb_lt _ _) Hn).
  destruct (result (get_vm_hourly_price _ _ _ _) cat) as [e|[vm|]];
    [split; discriminate| |split; discriminate].
  destruct (result (get_disk_monthly_price _ _ _ _) cat) as [e|[disk|]];
    [split; discriminate| |split; discriminate].
  reflexivity.
Qed.

Lemma hot_dr_mirrors_primary_witness :
  exists figures,
    result (dr_costs (Cases.args "D8s v5" "eastus2" "hot" 2) true
              (dr_instances "hot" 2)) (Sample.catalog []) = inr figures
    /\ result (compute_primary_costs "eastus2" "D8s v5" true 2 "P10" "lrs" "USD"
                 0%float) (Sample.catalog []) = inr figures.
Proof.
  destruct (result (compute_primary_costs "eastus2" "D8s v5" true 2 "P10" "lrs"
                      "USD" 0%float) (Sample.catalog []))
    as [e|figures] eqn:E; [vm_compute in E; discriminate E|].
  exists figures. split; [|reflexivity].
  apply (hot_dr_mirrors_primary (Cases.args "D8s v5" "eastus2" "hot" 2) true
           (Sample.catalog []) figures eq_refl eq_refl).
  exact E.
Defined.

(** X6. The DR phase raises the aggregator's error when it needs a VM
    price (a positive DR instance count) and the VM lookup selects no
    record, and then it has not asked for disk prices; it raises it too
    when the disk lookup selects no record.  Either way it returns no
    total and no breakdown. *)
Theorem dr_costs_not_found (args : Args) (windows : bool) (k : Z) (cat : Catalog) :
  ((0 < k)%Z
   /\ result (get_vm_hourly_price (args_dr args) (args_vm_size args) windows
                (args_currency args)) cat = inr None)
  \/ (((k <= 0)%Z
       \/ exists vm,
            result (get_vm_hourly_price (args_dr args) (args_vm_size args) windows
                      (args_currency args)) cat = inr (Some vm))
      /\ result (get_disk_monthly_price (args_dr args) (args_os_disk args)
                   (args_disk_redundancy args) (args_currency args)) cat
         = inr None) ->
  (exists msg, result (dr_costs args windows k) cat = inl (RuntimeError msg))
  /\ ((0 < k)%Z ->
      result (get_vm_hourly_price (args_dr args) (args_vm_size args) windows
                (args_currency args)) cat = inr None ->
      issued (dr_costs args windows k) cat
      = [(vm_filter (args_dr args), args_currency args)]).
Proof.
  intros H. split.
  - rewrite dr_costs_result. cbv zeta.
    destruct H as [[Hk Hvm]|[[Hk|[vm Hvm]] Hdisk]].
    + rewrite (proj2 (Z.ltb_lt _ _) Hk), Hvm. eauto.
    + rewrite (proj2 (Z.ltb_ge _ _) Hk), Hdisk. eauto.
    + rewrite Hvm, Hdisk. destruct (0 <? k)%Z; eauto.
  - intros Hk Hvm. rewrite dr_costs_issued. cbv zeta.
    now rewrite (proj2 (Z.ltb_lt _ _) Hk), Hvm.
Qed.

Lemma dr_costs_not_found_witness :
  result (dr_costs (Cases.args "Z99" "eastus2" "warm" 2) true
            (dr_instances "warm" 2)) (Sample.catalog [])
  = inl (RuntimeError "Could not find DR VM price for Z99 in eastus2.")
  /\ issued (dr_costs (Cases.args "Z99" "eastus2" "warm" 2) true
               (dr_instances "warm" 2)) (Sample.catalog [])
     = [(vm_filter "eastus2", "USD")]
  /\ result (main (Cases.args "D8s v5" "centralus" "cold" 2)) (Sample.catalog [])
     = inr (Exit 3 (RuntimeError
                      "Could not find DR disk price for P10 LRS in centralus.")).
Proof.
  destruct (dr_costs_not_found (Cases.args "Z99" "eastus2" "warm" 2) true
              (dr_instances "warm" 2) (Sample.catalog [])
              (or_introl (conj eq_refl eq_refl))) as [[msg Hmsg] Hlog].
  split; [|split].
  - rewrite Hmsg. vm_compute in Hmsg. symmetry. exact Hmsg.
  - exact (Hlog eq_refl eq_refl).
  - reflexivity.
Defined.

(** ** Windows and Linux selection *)

Lemma vm_is_match_windows (r : PriceRecord) :
  vm_is_match true r = true ->
  vm_is_match false r = true
  /\ contains "Windows" (get_or_empty (productName r)) = true.
Proof.
  unfold vm_is_match.
  destruct (field_neq (type r) "Consumption"); [discriminate|].
  split_contains; cbn; intros H; try discriminate; now split.
Qed.

(** X7. Selection for Linux skips the product-name test, so it chooses
    among a superset of the records: whenever selection for Windows
    returns a record, that record names "Windows" in its product name,
    and selection for Linux over the same list returns a record too,
    priced at least as high. *)
Theorem select_vm_price_linux_dominates (records : list PriceRecord)
    (r : PriceRecord) :
  select_vm_price records true = Some r ->
  contains "Windows" (get_or_empty (productName r)) = true
  /\ exists r', select_vm_price records false = Some r'
                /\ (price r <= price r')%Qc.
Proof.
  unfold select_vm_price. intros H.
  destruct (filter (vm_is_match true) records) as [|m ms] eqn:E; [discriminate|].
  rewrite <- E in H.
  assert (filter (vm_is_match true) records <> []) as Hne by (rewrite E; discriminate).
  destruct (sorted_filter_head price true _ _ Hne) as (x & Hx & Hin & Hp & _).
  rewrite H in Hx. injection Hx as <-.
  destruct (vm_is_match_windows r Hp) as [Hlinux Hwin].
  split; [exact Hwin|].
  assert (filter (vm_is_match false) records <> []) as Hne'.
  { intros E'. rewrite filter_nil_iff in E'. rewrite (E' r Hin) in Hlinux.
    discriminate. }
  destruct (sorted_filter_head price true _ _ Hne') as (r' & Hr' & _ & _ & Hbest).
  exists r'. split.
  - destruct (filter (vm_is_match false) records); [contradiction|exact Hr'].
  - exact (Hbest r Hin Hlinux).
Qed.

Lemma select_vm_price_linux_dominates_witness :
  select_vm_price [Sample.vm_linux; Sample.vm_windows_cheap] true
  = Some Sample.vm_windows_cheap
  /\ select_vm_price [Sample.vm_linux; Sample.vm_windows_cheap] false
     = Some Sample.vm_linux
  /\ (price Sample.vm_windows_cheap <= price Sample.vm_linux)%Qc.
Proof.
  split; [reflexivity|]. split; [reflexivity|].
  destruct (select_vm_price_linux_dominates
              [Sample.vm_linux; Sample.vm_windows_cheap] Sample.vm_windows_cheap
              eq_refl) as (_ & r' & Hr' & Hle).
  vm_compute in Hr'. injection Hr' as <-. exact Hle.
Defined.

(** ** A [null] SKU name *)

Lemma filter_exn_attribute_error (t : string) (recs : list PriceRecord) (e : Exn) :
  filter_exn (size_matches t) recs = inl e -> e = AttributeError.
Proof.
  induction recs as [|r recs IH]; [discriminate|]. cbn [filter_exn].
  destruct (size_matches t r) as [e'|b] eqn:Hr.
  - intros [= <-]. unfold size_matches in Hr.
    destruct (get_default (skuName r)); [|congruence].
    destruct (contains t (lower s)); [discriminate|].
    destruct (get_default (armSkuName r)); [discriminate|congruence].
  - destruct (filter_exn (size_matches t) recs); [|discriminate].
    intros [= <-]. now apply IH.
Qed.

Lemma filter_exn_raises {A : Type} (p : A -> Exn + bool) (l : list A) (x : A)
    (e : Exn) :
  In x l -> p x = inl e -> exists e', filter_exn p l = inl e'.
Proof.
  induction l as [|y l IH]; [intros []|]. intros [->|Hin] Hx; cbn [filter_exn].
  - rewrite Hx. eauto.
  - destruct (p y); [eauto|]. destruct (IH Hin Hx) as [e' ->]. eauto.
Qed.

(** X8. [get_vm_hourly_price] reads the SKU names with [r.get(k, "")],
    which returns [None] for a JSON [null]: when the fetch succeeds and
    some fetched record has a null [skuName], or a null [armSkuName] and
    a [skuName] that does not contain the size, the lookup raises
    [AttributeError] whatever the other records are, and so does
    [compute_primary_costs]. *)
Theorem get_vm_hourly_price_null_sku
    (cat : Catalog) (region vm_size : string) (windows : bool) (instances : Z)
    (disk_sku disk_redundancy currency : string) (interzone_gb : float)
    (recs : list PriceRecord) (r : PriceRecord) :
  fetch_all cat (vm_filter region) currency = Some recs ->
  In r recs ->
  skuName r = Null
  \/ (armSkuName r = Null
      /\ contains (target_lower vm_size) (lower (get_or_empty (skuName r))) = false) ->
  result (get_vm_hourly_price region vm_size windows currency) cat
  = inl AttributeError
  /\ result (compute_primary_costs region vm_size windows instances disk_sku
               disk_redundancy currency interzone_gb) cat
     = inl AttributeError.
Proof.
  intros Hfetch Hin Hnull.
  assert (size_matches (target_lower vm_size) r = inl AttributeError) as Hr.
  { unfold size_matches.
    destruct Hnull as [->|[Ha Hs]]; [reflexivity|].
    rewrite Ha. destruct (skuName r) as [| |s]; cbn in *; try reflexivity.
    + now rewrite Hs.
    + now rewrite Hs. }
  assert (result (get_vm_hourly_price region vm_size windows currency) cat
          = inl AttributeError) as Hvm.
  { unfold result. rewrite get_vm_hourly_price_run, Hfetch. cbn [fst].
    destruct (filter_exn_raises _ _ _ _ Hin Hr) as [e He]. rewrite He.
    now rewrite (filter_exn_attribute_error _ _ _ He). }
  split; [exact Hvm|].
  now rewrite compute_primary_costs_result, Hvm.
Qed.

Lemma get_vm_hourly_price_null_sku_witness :
  result (get_vm_hourly_price "eastus2" "D8s v5" true "USD") Cases.null_catalog
  = inl AttributeError
  /\ result (main (Cases.args "D8s v5" "eastus2" "cold" 2)) Cases.null_catalog
     = inr (Exit 2 AttributeError)
  /\ select_vm_price [Sample.vm_windows; Cases.vm_null_sku] true
     = Some Sample.vm_windows.
Proof.
  split; [|split; reflexivity].
  refine (proj1 (get_vm_hourly_price_null_sku
                   Cases.null_catalog "eastus2" "D8s v5" true 2 "P10" "lrs" "USD"
                   0%float [Sample.vm_windows; Cases.vm_null_sku] Cases.vm_null_sku
                   eq_refl _ (or_introl eq_refl))).
  right. now left.
Defined.

(** ** Spelling of the size, the disk SKU and the redundancy *)

Lemma lower_upper (s : string) : lower (upper s) = lower s.
Proof.
  induction s as [|c s IH]; [reflexivity|].
  unfold lower, upper in *. cbn [map_chars]. rewrite IH. f_equal.
  destruct c as [[] [] [] [] [] [] [] []]; reflexivity.
Qed.

Lemma upper_lower (s : string) : upper (lower s) = upper s.
Proof.
  induction s as [|c s IH]; [reflexivity|].
  unfold lower, upper in *. cbn [map_chars]. rewrite IH. f_equal.
  destruct c as [[] [] [] [] [] [] [] []]; reflexivity.
Qed.

Lemma upper_idempotent (s : string) : upper (upper s) = upper s.
Proof.
  induction s as [|c s IH]; [reflexivity|].
  unfold upper in *. cbn [map_chars]. rewrite IH. f_equal.
  destruct c as [[] [] [] [] [] [] [] []]; reflexivity.
Qed.

Lemma target_lower_spelling (vm_size : string) :
  target_lower ("Standard_" ++ vm_size) = target_lower vm_size
  /\ target_lower (" " ++ vm_size) = target_lower vm_size
  /\ target_lower (upper vm_size) = target_lower vm_size
  /\ target_lower (lower vm_size) = target_lower vm_size.
Proof.
  split; [reflexivity|]. split; [reflexivity|].
  unfold target_lower. now rewrite lower_upper, lower_idempotent.
Qed.

(** X9. The VM lookup does not depend on the spelling of the size: the
    ARM name with its "Standard_" prefix, a size preceded by a blank, and
    the size in upper or in lower case give the same query and the same
    result as the size itself. *)
Theorem get_vm_hourly_price_spelling
    (region vm_size : string) (windows : bool) (currency : string)
    (cat : Catalog) :
  get_vm_hourly_price region ("Standard_" ++ vm_size) windows currency cat
  = get_vm_hourly_price region vm_size windows currency cat
  /\ get_vm_hourly_price region (" " ++ vm_size) windows currency cat
     = get_vm_hourly_price region vm_size windows currency cat
  /\ get_vm_hourly_price region (upper vm_size) windows currency cat
     = get_vm_hourly_price region vm_size windows currency cat
  /\ get_vm_hourly_price region (lower vm_size) windows currency cat
     = get_vm_hourly_price region vm_size windows currency cat.
Proof.
  destruct (target_lower_spelling vm_size) as (H1 & H2 & H3 & H4).
  rewrite !get_vm_hourly_price_run, H1, H2, H3, H4. repeat split.
Qed.

(** X10. The disk lookup does not depend on the case of the disk SKU
    (the query carries it in upper case) nor on the case of the
    redundancy (the selector lower-cases it). *)
Theorem get_disk_monthly_price_case
    (region disk_sku redundancy currency : string) (cat : Catalog) :
  get_disk_monthly_price region (lower disk_sku) (upper redundancy) currency cat
  = get_disk_monthly_price region disk_sku redundancy currency cat
  /\ get_disk_monthly_price region (upper disk_sku) (lower redundancy) currency cat
     = get_disk_monthly_price region disk_sku redundancy currency cat.
Proof.
  rewrite !get_disk_monthly_price_run. unfold disk_filter, select_disk_price.
  rewrite upper_lower, lower_upper, upper_idempotent, lower_idempotent. now split.
Qed.

(** X11. A redundancy that is neither "lrs" nor "zrs" up to case
    matches no record: [select_disk_price] returns [None] for every
    list, and [compute_primary_costs] then returns no figures whatever
    the service answers. *)
Theorem select_disk_price_unknown_redundancy (redundancy : string) :
  lower redundancy <> "lrs" -> lower redundancy <> "zrs" ->
  (forall records, select_disk_price records redundancy = None)
  /\ (forall region vm_size windows instances disk_sku currency interzone_gb
             cat total details,
        result (compute_primary_costs region vm_size windows instances disk_sku
                  redundancy currency interzone_gb) cat
        <> inr (total, details)).
Proof.
  intros Hl Hz.
  assert (forall records, select_disk_price records redundancy = None) as Hnone.
  { intros records. unfold select_disk_price.
    replace (filter (disk_is_match (lower redundancy)) records) with (@nil PriceRecord);
      [reflexivity|].
    symmetry. apply filter_nil_iff. intros r _. unfold disk_is_match.
    rewrite (proj2 (String.eqb_neq _ _) Hl), (proj2 (String.eqb_neq _ _) Hz).
    cbn [andb].
    destruct (field_neq (type r) "Consumption"); [reflexivity|].
    destruct (negb (contains "month" (lower (get_or_empty (unitOfMeasure r)))));
      [reflexivity|].
    now destruct (negb (contains "Premium SSD Managed Disks"
                          (get_or_empty (productName r)))). }
  split; [exact Hnone|].
  intros region vm_size windows instances disk_sku currency interzone_gb cat
         total details.
  rewrite compute_primary_costs_result.
  destruct (result (get_vm_hourly_price region vm_size windows currency) cat)
    as [e|[vm|]]; try discriminate.
  unfold result at 1. rewrite get_disk_monthly_price_run. cbn [fst].
  destruct (fetch_all cat (disk_filter region disk_sku) currency);
    [rewrite Hnone|]; discriminate.
Qed.

Lemma select_disk_price_unknown_redundancy_witness :
  select_disk_price [Sample.disk_zrs; Sample.disk_mount; Sample.disk_lrs] "grs" = None.
Proof.
  apply (select_disk_price_unknown_redundancy "grs"); discriminate.
Defined.

(** ** The meter test of the inter-zone finder *)

Lemma contains_trans (a b c : string) :
  contains a b = true -> contains b c = true -> contains a c = true.
Proof.
  rewrite !contains_iff. intros (x & y & ->) (u & v & ->).
  exists (u ++ x), (y ++ v).
  induction u as [|ch u IH]; cbn [append].
  - induction x as [|ch x IHx]; cbn [append]; [|now rewrite IHx].
    induction a as [|ch a IHa]; cbn [append]; [reflexivity|now rewrite IHa].
  - now rewrite IH.
Qed.

(** X12. In the candidate test of the finder the alternatives
    "inter-zone" and "inter zone" add nothing: a record is a candidate
    exactly when its unit contains "gb", its product name contains
    "bandwidth" and its meter name contains "zone", whatever the case. *)
Theorem is_candidate_zone (r : PriceRecord) :
  is_candidate r
  = contains "gb" (lower (get_or_empty (unitOfMeasure r)))
    && contains "bandwidth" (lower (get_or_empty (productName r)))
    && contains "zone" (lower (get_or_empty (meterName r))).
Proof.
  unfold is_candidate.
  destruct (contains "gb" _); [|reflexivity].
  destruct (contains "bandwidth" _); [|reflexivity]. cbn [negb andb].
  destruct (contains "zone" (lower (get_or_empty (meterName r)))) eqn:Hz;
    [reflexivity|].
  destruct (contains "inter-zone" (lower (get_or_empty (meterName r)))) eqn:H1.
  { rewrite (contains_trans "zone" "inter-zone" _ eq_refl H1) in Hz. discriminate. }
  destruct (contains "inter zone" (lower (get_or_empty (meterName r)))) eqn:H2.
  { rewrite (contains_trans "zone" "inter zone" _ eq_refl H2) in Hz. discriminate. }
  reflexivity.
Qed.

(** ** The breakdown and the queries of [compute_primary_costs] *)

(** X13. The breakdown of a [compute_primary_costs] that returns lists
    [compute_vm_month], then [os_disks_month], then
    [interzone_data_month] when and only when the test
    [interzone_gb > 0] of the code holds (a zero, a negative or a NaN
    volume adds no key).  [os_disks_month] is the binary64 product of
    the instance count and the price of the selected disk record, and
    [interzone_data_month] is the binary64 product of the volume and the
    price of the rate found.  For 5 instances with disks at 19.71,
    [os_disks_month] is the double 98.55000000000001. *)
Theorem compute_primary_costs_breakdown
    (region vm_size : string) (windows : bool) (instances : Z)
    (disk_sku disk_redundancy currency : string) (interzone_gb : float)
    (cat : Catalog) (total : float) (details : Dict) :
  result (compute_primary_costs region vm_size windows instances disk_sku
            disk_redundancy currency interzone_gb) cat = inr (total, details) ->
  (PrimFloat.ltb 0 interzone_gb = true ->
   map fst details = ["compute_vm_month"; "os_disks_month"; "interzone_data_month"])
  /\ (PrimFloat.ltb 0 interzone_gb = false ->
      map fst details = ["compute_vm_month"; "os_disks_month"])
  /\ (exists disk,
        result (get_disk_monthly_price region disk_sku disk_redundancy currency) cat
        = inr (Some disk)
        /\ dict_get "os_disks_month" details
           = Some (Z2float instances * to_float (price disk))%float)
  /\ (forall iz,
        PrimFloat.ltb 0 interzone_gb = true ->
        result (find_interzone_bandwidth_rate region currency) cat = inr (Some iz) ->
        dict_get "interzone_data_month" details
        = Some (interzone_gb * to_float (price iz))%float).
Proof.
  intros Hrun. rewrite compute_primary_costs_result in Hrun.
  destruct (result (get_vm_hourly_price region vm_size windows currency) cat)
    as [e|[vm|]]; try discriminate.
  destruct (result (get_disk_monthly_price region disk_sku disk_redundancy currency) cat)
    as [e|[disk|]]; try discriminate.
  cbv zeta in Hrun.
  destruct (PrimFloat.ltb 0 interzone_gb).
  - destruct (result (find_interzone_bandwidth_rate region currency) cat)
      as [e|[iz|]]; try discriminate; injection Hrun as <- <-;
      (split; [reflexivity|]);
      (split; [discriminate|]);
      (split; [exists disk; now split|]).
    + intros iz' _ [= <-]. reflexivity.
    + discriminate.
  - injection Hrun as <- <-.
    split; [discriminate|].
    split; [reflexivity|].
    split; [exists disk; now split|].
    discriminate.
Qed.

Lemma compute_primary_costs_breakdown_witness :
  exists total details,
    result (compute_primary_costs "eastus2" "D8s v5" true 5 "P10" "lrs" "USD"
              100%float)
           (Sample.catalog [Sample.zone_a; Sample.zone_b]) = inr (total, details)
    /\ map fst details = ["compute_vm_month"; "os_disks_month"; "interzone_data_month"]
    /\ dict_get "interzone_data_month" details
       = Some (100 * to_float (price Sample.zone_a))%float
    /\ dict_get "os_disks_month" details = Some 98.55000000000001%float
    /\ (98.55000000000001 =? 98.55)%float = false.
Proof.
  destruct (result (compute_primary_costs "eastus2" "D8s v5" true 5 "P10" "lrs" "USD"
                      100%float) (Sample.catalog [Sample.zone_a; Sample.zone_b]))
    as [e|[total details]] eqn:E; [vm_compute in E; discriminate E|].
  exists total, details. split; [reflexivity|].
  destruct (compute_primary_costs_breakdown
              "eastus2" "D8s v5" true 5 "P10" "lrs" "USD" 100%float
              (Sample.catalog [Sample.zone_a; Sample.zone_b]) total details E)
    as (Hkeys & _ & (disk & Hdisk & Hmonth) & Hiz).
  assert (PrimFloat.ltb 0 100 = true) as Hgb by reflexivity.
  split; [exact (Hkeys Hgb)|].
  split; [exact (Hiz Sample.zone_a Hgb eq_refl)|].
  split; [|reflexivity].
  rewrite Hmonth. vm_compute in Hdisk. injection Hdisk as <-. reflexivity.
Defined.

Lemma find_interzone_issued (region currency : string) (cat : Catalog) :
  exists rest,
    (issued (find_interzone_bandwidth_rate region currency) cat ++ rest)%list
    = map (fun f => (f, currency)) (interzone_filters region).
Proof.
  unfold issued, find_interzone_bandwidth_rate, interzone_filters.
  rewrite !find_in_filters_step. cbn [find_in_filters ret map].
  repeat match goal with
         | |- context [match ?x with _ => _ end] => destruct x
         end; cbn [snd fst app]; eexists; reflexivity.
Qed.

(** The queries of [compute_primary_costs], by the outcome of its
    lookups. *)
Lemma compute_primary_costs_issued_by_outcome
    (region vm_size : string) (windows : bool) (instances : Z)
    (disk_sku disk_redundancy currency : string) (interzone_gb : float)
    (cat : Catalog) :
  issued (compute_primary_costs region vm_size windows instances disk_sku
            disk_redundancy currency interzone_gb) cat =
  (vm_filter region, currency) ::
  match result (get_vm_hourly_price region vm_size windows currency) cat with
  | inr (Some _) =>
      (disk_filter region disk_sku, currency) ::
      match result (get_disk_monthly_price region disk_sku disk_redundancy currency)
                   cat with
      | inr (Some _) =>
          if PrimFloat.ltb 0 interzone_gb
          then issued (find_interzone_bandwidth_rate region currency) cat
          else []
      | _ => []
      end
  | _ => []
  end.
Proof.
  unfold issued at 1, compute_primary_costs. rewrite bind_run.
  rewrite (run_pair (get_vm_hourly_price _ _ _ _) cat), get_vm_hourly_price_issued.
  destruct (result (get_vm_hourly_price region vm_size windows currency) cat)
    as [e|[vm|]]; cbn [fst snd raise app]; try reflexivity.
  rewrite bind_run.
  rewrite (run_pair (get_disk_monthly_price _ _ _ _) cat),
    get_disk_monthly_price_issued.
  destruct (result (get_disk_monthly_price region disk_sku disk_redundancy currency) cat)
    as [e|[disk|]]; cbn [fst snd raise app]; try reflexivity.
  destruct (PrimFloat.ltb 0 interzone_gb); [|reflexivity].
  rewrite bind_run.
  rewrite (run_pair (find_interzone_bandwidth_rate _ _) cat).
  destruct (result (find_interzone_bandwidth_rate region currency) cat) as [e|iz];
    cbn [fst snd]; [reflexivity|].
  destruct (truthy iz); cbn [snd ret]; now rewrite app_nil_r.
Qed.

(** X14. [compute_primary_costs] issues its queries in one order, the VM
    query, the disk query, the "Networking" query, the "Bandwidth" query,
    and stops at the first lookup that raises or selects nothing: the
    queries issued are always an initial part of that list, and when the
    VM lookup does not select a record the VM query is the only one. *)
Theorem compute_primary_costs_queries
    (region vm_size : string) (windows : bool) (instances : Z)
    (disk_sku disk_redundancy currency : string) (interzone_gb : float)
    (cat : Catalog) :
  (exists rest,
     (issued (compute_primary_costs region vm_size windows instances disk_sku
                disk_redundancy currency interzone_gb) cat ++ rest)%list
     = (vm_filter region, currency) :: (disk_filter region disk_sku, currency)
       :: map (fun f => (f, currency)) (interzone_filters region))
  /\ ((forall vm,
         result (get_vm_hourly_price region vm_size windows currency) cat
         <> inr (Some vm)) ->
      issued (compute_primary_costs region vm_size windows instances disk_sku
                disk_redundancy currency interzone_gb) cat
      = [(vm_filter region, currency)]).
Proof.
  rewrite compute_primary_costs_issued_by_outcome. split.
  - destruct (result (get_vm_hourly_price region vm_size windows currency) cat)
      as [e|[vm|]]; cbn [app]; eauto.
    destruct (result (get_disk_monthly_price region disk_sku disk_redundancy
                        currency) cat)
      as [e|[disk|]]; cbn [app]; eauto.
    destruct (PrimFloat.ltb 0 interzone_gb); cbn [app]; eauto.
    destruct (find_interzone_issued region currency cat) as [rest Hrest].
    exists rest. now rewrite Hrest.
  - intros Hvm.
    destruct (result (get_vm_hourly_price region vm_size windows currency) cat)
      as [e|[vm|]]; try reflexivity.
    now destruct (Hvm vm).
Qed.

(** ** What a VM lookup returns *)

Lemma size_matches_value (t : string) (r : PriceRecord) (b : bool) :
  size_matches t r = inr b ->
  b = contains t (lower (get_or_empty (skuName r)))
      || contains t (lower (get_or_empty (armSkuName r))).
Proof.
  unfold size_matches, get_default, get_or_empty.
  destruct (skuName r) as [| |s]; try discriminate;
    match goal with
    | |- context [if ?c then _ else _] => destruct c
    end;
    try (intros [= <-]; reflexivity);
    destruct (armSkuName r); try discriminate; intros [= <-]; reflexivity.
Qed.

Lemma filter_exn_value {A : Type} (p : A -> Exn + bool) (q : A -> bool)
    (l t : list A) :
  (forall x b, p x = inr b -> b = q x) ->
  filter_exn p l = inr t -> t = filter q l.
Proof.
  intros Hpq. revert t. induction l as [|x l IH]; intros t; cbn [filter_exn filter].
  - now intros [= <-].
  - destruct (p x) as [e|b] eqn:Hx; [discriminate|].
    destruct (filter_exn p l) as [e|t']; [discriminate|].
    intros [= <-]. rewrite <- (Hpq x b Hx), (IH t' eq_refl). reflexivity.
Qed.

(** X15. A record returned by [get_vm_hourly_price] is one of the
    records fetched by the VM query of the region; its SKU name or ARM
    SKU name contains the normalised size whatever the case; it
    satisfies the selection predicate for the OS; and no fetched record
    with these two properties has a higher price. *)
Theorem get_vm_hourly_price_sound
    (cat : Catalog) (region vm_size : string) (windows : bool) (currency : string)
    (r : PriceRecord) :
  result (get_vm_hourly_price region vm_size windows currency) cat = inr (Some r) ->
  exists recs,
    fetch_all cat (vm_filter region) currency = Some recs
    /\ In r recs
    /\ Spec.size_kept (target_lower vm_size) r = true
    /\ Spec.vm_predicate windows r = true
    /\ forall r', In r' recs ->
                  Spec.size_kept (target_lower vm_size) r' = true ->
                  Spec.vm_predicate windows r' = true ->
                  (price r' <= price r)%Qc.
Proof.
  unfold result. rewrite get_vm_hourly_price_run. cbn [fst].
  destruct (fetch_all cat (vm_filter region) currency) as [recs|]; [|discriminate].
  destruct (filter_exn (size_matches (target_lower vm_size)) recs)
    as [e|filtered] eqn:Hf; [discriminate|].
  intros [= Hsel]. exists recs. split; [reflexivity|].
  apply (filter_exn_value _ (Spec.size_kept (target_lower vm_size))) in Hf.
  2:{ intros x b Hx. apply size_matches_value in Hx.
      unfold Spec.size_kept, Spec.contains_ci, Spec.text.
      now rewrite target_lower_is_lower. }
  subst filtered. unfold select_vm_price in Hsel. rewrite filter_twice in Hsel.
  set (both := fun x => Spec.size_kept (target_lower vm_size) x
                        && vm_is_match windows x) in Hsel.
  destruct (filter both recs) as [|m ms] eqn:E; [discriminate|].
  rewrite <- E in Hsel.
  assert (filter both recs <> []) as Hne by (rewrite E; discriminate).
  destruct (sorted_filter_head price true _ _ Hne) as (x & Hx & Hin & Hp & Hbest).
  rewrite Hsel in Hx. injection Hx as <-.
  unfold both in Hp. apply andb_true_iff in Hp as [Hsize Hmatch].
  rewrite vm_is_match_spec in Hmatch.
  repeat split; try assumption.
  intros r' Hr' Hs' Hm'. apply (Hbest r' Hr').
  unfold both. rewrite Hs', vm_is_match_spec, Hm'. reflexivity.
Qed.

Lemma get_vm_hourly_price_sound_witness :
  exists recs,
    fetch_all (Sample.catalog []) (vm_filter "eastus2") "USD" = Some recs
    /\ In Sample.vm_windows recs
    /\ Spec.size_kept "d8s v5" Sample.vm_windows = true.
Proof.
  destruct (get_vm_hourly_price_sound (Sample.catalog []) "eastus2" "D8s v5" true
              "USD" Sample.vm_windows eq_refl)
    as (recs & Hfetch & Hin & Hsize & _).
  exists recs. repeat split; assumption.
Defined.

(** ** Failed requests *)

(** A query whose fetch raised. *)
Lemma get_vm_hourly_price_request (region vm_size : string) (windows : bool)
    (currency : string) (cat : Catalog) :
  result (get_vm_hourly_price region vm_size windows currency) cat
  = inl RequestException
  <-> fetch_all cat (vm_filter region) currency = None.
Proof.
  unfold result. rewrite get_vm_hourly_price_run. cbn [fst].
  destruct (fetch_all cat (vm_filter region) currency) as [recs|];
    [|now split].
  destruct (filter_exn (size_matches (target_lower vm_size)) recs) as [e|l] eqn:E;
    [|split; discriminate].
  rewrite (filter_exn_attribute_error _ _ _ E). split; discriminate.
Qed.

Lemma get_disk_monthly_price_request (region disk_sku redundancy currency : string)
    (cat : Catalog) :
  result (get_disk_monthly_price region disk_sku redundancy currency) cat
  = inl RequestException
  <-> fetch_all cat (disk_filter region disk_sku) currency = None.
Proof.
  unfold result. rewrite get_disk_monthly_price_run. cbn [fst].
  destruct (fetch_all cat (disk_filter region disk_sku) currency);
    split; (discriminate || reflexivity).
Qed.

Lemma find_in_filters_request (filters : list string) (currency : string)
    (cat : Catalog) :
  result (find_in_filters filters currency) cat = inl RequestException
  <-> Exists (fun q => fetch_all cat (fst q) (snd q) = None)
             (issued (find_in_filters filters currency) cat).
Proof.
  unfold result, issued. induction filters as [|f rest IH].
  - cbn. split; [discriminate|]. intros H. inversion H.
  - rewrite find_in_filters_step.
    destruct (fetch_all cat f currency) as [recs|] eqn:Hf.
    + destruct (filter is_candidate recs) as [|c cs]; cbn [fst snd].
      * rewrite IH. split; [now constructor 2|].
        intros H. inversion H as [q l Hq|q l Hl]; subst; [|exact Hl].
        cbn [fst snd] in Hq. congruence.
      * split; [discriminate|].
        intros H. inversion H as [q l Hq|q l Hl]; subst.
        -- cbn [fst snd] in Hq. congruence.
        -- inversion Hl.
    + cbn [fst snd]. split; [|reflexivity]. intros _. now constructor 1.
Qed.

Lemma Exists_one {A : Type} (P : A -> Prop) (x : A) : Exists P [x] <-> P x.
Proof.
  split; [|now constructor 1].
  intros H. inversion H as [? ? Hx|? ? Hl]; [exact Hx|inversion Hl].
Qed.

(** X16. [compute_primary_costs] raises the exception of a failed
    request exactly when a query it issued failed (a page of its answer
    could not be fetched): such a failure is never reported as a price
    that was not found, and no figure is computed from the pages
    received before it. *)
Theorem compute_primary_costs_request_failure
    (region vm_size : string) (windows : bool) (instances : Z)
    (disk_sku disk_redundancy currency : string) (interzone_gb : float)
    (cat : Catalog) :
  result (compute_primary_costs region vm_size windows instances disk_sku
            disk_redundancy currency interzone_gb) cat = inl RequestException
  <-> Exists (fun q => fetch_all cat (fst q) (snd q) = None)
             (issued (compute_primary_costs region vm_size windows instances
                        disk_sku disk_redundancy currency interzone_gb) cat).
Proof.
  rewrite compute_primary_costs_result, compute_primary_costs_issued_by_outcome.
  pose proof (get_vm_hourly_price_request region vm_size windows currency cat) as Hvm.
  pose proof (get_disk_monthly_price_request region disk_sku disk_redundancy
                currency cat) as Hdisk.
  pose proof (find_in_filters_request (interzone_filters region) currency cat) as Hiz.
  fold (find_interzone_bandwidth_rate region currency) in Hiz.
  destruct (result (get_vm_hourly_price region vm_size windows currency) cat)
    as [e|[vm|]].
  - rewrite Exists_one. cbn [fst snd].
    split; [intros [= ->]; now apply Hvm|].
    intros H; apply Hvm in H; now injection H as ->.
  - assert (fetch_all cat (vm_filter region) currency <> None) as Hv
        by (intros H; apply Hvm in H; discriminate).
    rewrite Exists_cons. cbn [fst snd].
    destruct (result (get_disk_monthly_price region disk_sku disk_redundancy
                        currency) cat) as [e|[disk|]].
    + rewrite Exists_one. cbn [fst snd].
      split; [intros [= ->]; right; now apply Hdisk|].
      intros [H|H]; [contradiction|].
      apply Hdisk in H; now injection H as ->.
    + assert (fetch_all cat (disk_filter region disk_sku) currency <> None) as Hd
          by (intros H; apply Hdisk in H; discriminate).
      cbv zeta. rewrite Exists_cons. cbn [fst snd].
      destruct (PrimFloat.ltb 0 interzone_gb).
      * rewrite <- Hiz.
        destruct (result (find_interzone_bandwidth_rate region currency) cat)
          as [e|[iz|]].
        -- split; [intros [= ->]; now do 2 right|].
           intros [H|[H|H]]; try contradiction. now injection H as ->.
        -- split; [discriminate|].
           intros [H|[H|H]]; try contradiction. discriminate.
        -- split; [discriminate|].
           intros [H|[H|H]]; try contradiction. discriminate.
      * rewrite Exists_nil. split; [discriminate|tauto].
    + assert (fetch_all cat (disk_filter region disk_sku) currency <> None) as Hd
          by (intros H; apply Hdisk in H; discriminate).
      rewrite Exists_one. cbn [fst snd].
      split; [discriminate|intros [H|H]; contradiction].
  - assert (fetch_all cat (vm_filter region) currency <> None) as Hv
        by (intros H; apply Hvm in H; discriminate).
    rewrite Exists_one. cbn [fst snd]. split; [discriminate|contradiction].
Qed.

Example request_failure_exit_2 :
  result (main (Cases.args "D8s v5" "eastus2" "cold" 2)) Sample.offline
  = inr (Exit 2 RequestException)
  /\ issued (main (Cases.args "D8s v5" "eastus2" "cold" 2)) Sample.offline
     = [(vm_filter "eastus2", "USD")].
Proof. split; reflexivity. Qed.
